(** * Chat widget (client/src/App.tsx) and chat API (server): a shallow embedding

    The React component [App] keeps its state in [useState] cells and one
    [useRef] cell holding the current WebSocket.  Each handler of the
    component is embedded as a computation in a small state-and-exception
    monad over the system state [Sys]: the React cells, the [wsRef] cell, the
    sockets created so far, the calls still in flight, and the chronological
    trace of outward effects ([fetch], [new WebSocket], [ws.send], ...).

    Asynchronous functions are split at their [await]: the part before it
    runs when the handler is invoked, the part after it runs when the
    environment settles the call. *)

From Stdlib Require Import List String Ascii Bool ZArith Lia.
Import ListNotations.
Local Open Scope string_scope.
Local Open Scope list_scope.
Set Warnings "-register-all".

(** ** JavaScript values *)

(** Values as [JSON.parse] produces them, plus [undefined].  Strings are
    sequences of code units below 256; numbers are kept when integral. *)
Inductive jsval : Type :=
| JUndefined
| JNull
| JBool (b : bool)
| JNum (n : Z)
| JStr (s : string)
| JArr (items : list jsval)
| JObj (fields : list (string * jsval)).

(** ToBoolean: what [!v] and [v || w] test. *)
Definition truthy (v : jsval) : bool :=
  match v with
  | JUndefined | JNull => false
  | JBool b => b
  | JNum n => negb (Z.eqb n 0)
  | JStr s => negb (String.eqb s "")
  | JArr _ | JObj _ => true
  end.

(** A field is absent when it is [null] or unset. *)
Definition absent (v : jsval) : bool :=
  match v with
  | JUndefined | JNull => true
  | _ => false
  end.

(** [v === 'lit'] for a string literal. *)
Definition is_str (v : jsval) (lit : string) : bool :=
  match v with
  | JStr s => String.eqb s lit
  | _ => false
  end.

(** [a || b] on values. *)
Definition js_or (a b : jsval) : jsval := if truthy a then a else b.

Fixpoint assoc (k : string) (fields : list (string * jsval)) : option jsval :=
  match fields with
  | [] => None
  | (k', v) :: rest => if String.eqb k k' then Some v else assoc k rest
  end.

(** [v.k] for the property names this program reads (none of them is a
    built-in property of strings, arrays, numbers or booleans): [None] is
    the TypeError raised on [null] and [undefined]. *)
Definition get_prop (v : jsval) (k : string) : option jsval :=
  match v with
  | JUndefined | JNull => None
  | JObj fields =>
      match assoc k fields with
      | Some x => Some x
      | None => Some JUndefined
      end
  | _ => Some JUndefined
  end.

(** [input.trim()] is the empty string: every code unit is white space. *)
Definition is_space (c : ascii) : bool :=
  let n := nat_of_ascii c in
  (Nat.leb 9 n && Nat.leb n 13) || Nat.eqb n 32 || Nat.eqb n 160.

Fixpoint blank (s : string) : bool :=
  match s with
  | EmptyString => true
  | String c rest => is_space c && blank rest
  end.

(** ** Messages *)

Inductive Sender : Type := user | bot.

Definition Sender_eqb (a b : Sender) : bool :=
  match a, b with
  | user, user | bot, bot => true
  | _, _ => false
  end.

(** [new Date()] read from the clock, or [new Date(v)] built from a value. *)
Inductive Timestamp : Type :=
| DateNow (clock : Z)
| DateOf (v : jsval).

(** [interface Message]; [isLoading] is optional. *)
Record Message : Type := mkMessage {
  content : jsval;
  sender : Sender;
  timestamp : Timestamp;
  isLoading : option bool
}.

(** [msg.isLoading] read as a condition. *)
Definition loading (msg : Message) : bool :=
  match isLoading msg with
  | Some b => b
  | None => false
  end.

(** [msg.isLoading && msg.sender === 'user'] *)
Definition pending (msg : Message) : bool :=
  loading msg && Sender_eqb (sender msg) user.

(** [{ ...msg, isLoading: false }] *)
Definition stop_loading (msg : Message) : Message :=
  {| content := content msg; sender := sender msg;
     timestamp := timestamp msg; isLoading := Some false |}.

(** The updater passed to [setMessages] when a remote message arrives. *)
Definition ack (msg : Message) : Message :=
  if pending msg then stop_loading msg else msg.

Definition deliver (newMessage : Message) (prev : list Message) : list Message :=
  let updated := map ack prev in
  updated ++ [newMessage].

(** ** Component state *)

(** The [useState] cells of [App]. *)
Record State : Type := mkState {
  messages : list Message;
  input : string;
  isTyping : bool;
  isChatLoading : bool;
  isWidgetOpen : bool;
  hasNewMessage : bool;
  hasPendingBotResponse : bool;
  contactId : jsval;
  participantToken : jsval;
  connectionToken : jsval;
  wsUrl : jsval
}.

Definition initial_state : State :=
  {| messages := []; input := ""; isTyping := false; isChatLoading := false;
     isWidgetOpen := false; hasNewMessage := false;
     hasPendingBotResponse := false;
     contactId := JNull; participantToken := JNull;
     connectionToken := JNull; wsUrl := JNull |}.

Inductive ReadyState : Type := CONNECTING | OPEN | CLOSING | CLOSED.

(** A WebSocket made by [initializeChat], with the [isWidgetOpen] its
    handlers closed over. *)
Record Socket : Type := mkSocket {
  sock_url : jsval;
  readyState : ReadyState;
  sock_isWidgetOpen : bool
}.

Inductive Effect : Type :=
| FetchStartChat
| FetchSendMessage (body : jsval)
| NewWebSocket (id : nat) (url : jsval)
| WsSend (id : nat) (frame : jsval)
| WsClose (id : nat)
| PlaySound
| ConsoleError (label : string).

Record Sys : Type := mkSys {
  st : State;
  wsRef : option nat;            (* wsRef.current: index into [sockets] *)
  sockets : list Socket;
  pendingStart : list bool;      (* start-chat calls in flight, each with the
                                    isWidgetOpen its continuation closed over *)
  pendingSend : nat;             (* send-message calls in flight *)
  trace : list Effect            (* oldest first *)
}.

Definition initial_sys : Sys :=
  {| st := initial_state; wsRef := None; sockets := [];
     pendingStart := []; pendingSend := 0; trace := [] |}.

(** ** The handler monad: state plus exceptions *)

Inductive Res (A : Type) : Type :=
| Ok (a : A)
| Thrown (err : string).
Arguments Ok {A} a.
Arguments Thrown {A} err.

Definition M (A : Type) : Type := Sys -> Res A * Sys.

Definition ret {A} (a : A) : M A := fun w => (Ok a, w).

Definition bind {A B} (m : M A) (k : A -> M B) : M B :=
  fun w =>
    match m w with
    | (Ok a, w') => k a w'
    | (Thrown e, w') => (Thrown e, w')
    end.

Definition throw {A} (err : string) : M A := fun w => (Thrown err, w).

(** [try { body } catch (err) { handler }]: state changes made before the
    throw stay. *)
Definition try_catch {A} (body : M A) (handler : string -> M A) : M A :=
  fun w =>
    match body w with
    | (Ok a, w') => (Ok a, w')
    | (Thrown e, w') => handler e w'
    end.

Declare Scope handler_scope.
Delimit Scope handler_scope with handler.
Notation "x <- m ;; k" := (bind m (fun x => k))
  (at level 61, m at next level, right associativity) : handler_scope.
Notation "m ;; k" := (bind m (fun _ => k))
  (at level 61, right associativity) : handler_scope.
Local Open Scope handler_scope.

Definition gets {A} (f : Sys -> A) : M A := fun w => (Ok (f w), w).
Definition modify (f : Sys -> Sys) : M unit := fun w => (Ok tt, f w).

(** Final system state of a computation, whatever its result. *)
Definition exec {A} (m : M A) (w : Sys) : Sys := snd (m w).

(** [None] raises, [Some v] continues with [v]. *)
Definition or_throw {A} (err : string) (o : option A) : M A :=
  match o with
  | Some a => ret a
  | None => throw err
  end.

Definition with_st (f : State -> State) (w : Sys) : Sys :=
  {| st := f (st w); wsRef := wsRef w; sockets := sockets w;
     pendingStart := pendingStart w; pendingSend := pendingSend w;
     trace := trace w |}.

Definition emit (e : Effect) : M unit :=
  modify (fun w =>
    {| st := st w; wsRef := wsRef w; sockets := sockets w;
       pendingStart := pendingStart w; pendingSend := pendingSend w;
       trace := trace w ++ [e] |}).

Definition set_wsRef (r : option nat) : M unit :=
  modify (fun w =>
    {| st := st w; wsRef := r; sockets := sockets w;
       pendingStart := pendingStart w; pendingSend := pendingSend w;
       trace := trace w |}).

Definition set_sockets (l : list Socket) : M unit :=
  modify (fun w =>
    {| st := st w; wsRef := wsRef w; sockets := l;
       pendingStart := pendingStart w; pendingSend := pendingSend w;
       trace := trace w |}).

Definition set_pendingStart (l : list bool) : M unit :=
  modify (fun w =>
    {| st := st w; wsRef := wsRef w; sockets := sockets w;
       pendingStart := l; pendingSend := pendingSend w;
       trace := trace w |}).

Definition set_pendingSend (n : nat) : M unit :=
  modify (fun w =>
    {| st := st w; wsRef := wsRef w; sockets := sockets w;
       pendingStart := pendingStart w; pendingSend := n;
       trace := trace w |}).

(** *** The [useState] setters *)

Definition setMessages (f : list Message -> list Message) : M unit :=
  modify (with_st (fun s =>
    {| messages := f (messages s); input := input s; isTyping := isTyping s;
       isChatLoading := isChatLoading s; isWidgetOpen := isWidgetOpen s;
       hasNewMessage := hasNewMessage s;
       hasPendingBotResponse := hasPendingBotResponse s;
       contactId := contactId s; participantToken := participantToken s;
       connectionToken := connectionToken s; wsUrl := wsUrl s |})).

Definition setInput (v : string) : M unit :=
  modify (with_st (fun s =>
    {| messages := messages s; input := v; isTyping := isTyping s;
       isChatLoading := isChatLoading s; isWidgetOpen := isWidgetOpen s;
       hasNewMessage := hasNewMessage s;
       hasPendingBotResponse := hasPendingBotResponse s;
       contactId := contactId s; participantToken := participantToken s;
       connectionToken := connectionToken s; wsUrl := wsUrl s |})).

Definition setIsTyping (v : bool) : M unit :=
  modify (with_st (fun s =>
    {| messages := messages s; input := input s; isTyping := v;
       isChatLoading := isChatLoading s; isWidgetOpen := isWidgetOpen s;
       hasNewMessage := hasNewMessage s;
       hasPendingBotResponse := hasPendingBotResponse s;
       contactId := contactId s; participantToken := participantToken s;
       connectionToken := connectionToken s; wsUrl := wsUrl s |})).

Definition setIsChatLoading (v : bool) : M unit :=
  modify (with_st (fun s =>
    {| messages := messages s; input := input s; isTyping := isTyping s;
       isChatLoading := v; isWidgetOpen := isWidgetOpen s;
       hasNewMessage := hasNewMessage s;
       hasPendingBotResponse := hasPendingBotResponse s;
       contactId := contactId s; participantToken := participantToken s;
       connectionToken := connectionToken s; wsUrl := wsUrl s |})).

Definition storeIsWidgetOpen (v : bool) : M unit :=
  modify (with_st (fun s =>
    {| messages := messages s; input := input s; isTyping := isTyping s;
       isChatLoading := isChatLoading s; isWidgetOpen := v;
       hasNewMessage := hasNewMessage s;
       hasPendingBotResponse := hasPendingBotResponse s;
       contactId := contactId s; participantToken := participantToken s;
       connectionToken := connectionToken s; wsUrl := wsUrl s |})).

Definition setHasNewMessage (v : bool) : M unit :=
  modify (with_st (fun s =>
    {| messages := messages s; input := input s; isTyping := isTyping s;
       isChatLoading := isChatLoading s; isWidgetOpen := isWidgetOpen s;
       hasNewMessage := v;
       hasPendingBotResponse := hasPendingBotResponse s;
       contactId := contactId s; participantToken := participantToken s;
       connectionToken := connectionToken s; wsUrl := wsUrl s |})).

Definition setHasPendingBotResponse (v : bool) : M unit :=
  modify (with_st (fun s =>
    {| messages := messages s; input := input s; isTyping := isTyping s;
       isChatLoading := isChatLoading s; isWidgetOpen := isWidgetOpen s;
       hasNewMessage := hasNewMessage s;
       hasPendingBotResponse := v;
       contactId := contactId s; participantToken := participantToken s;
       connectionToken := connectionToken s; wsUrl := wsUrl s |})).

Definition setContactId (v : jsval) : M unit :=
  modify (with_st (fun s =>
    {| messages := messages s; input := input s; isTyping := isTyping s;
       isChatLoading := isChatLoading s; isWidgetOpen := isWidgetOpen s;
       hasNewMessage := hasNewMessage s;
       hasPendingBotResponse := hasPendingBotResponse s;
       contactId := v; participantToken := participantToken s;
       connectionToken := connectionToken s; wsUrl := wsUrl s |})).

Definition setParticipantToken (v : jsval) : M unit :=
  modify (with_st (fun s =>
    {| messages := messages s; input := input s; isTyping := isTyping s;
       isChatLoading := isChatLoading s; isWidgetOpen := isWidgetOpen s;
       hasNewMessage := hasNewMessage s;
       hasPendingBotResponse := hasPendingBotResponse s;
       contactId := contactId s; participantToken := v;
       connectionToken := connectionToken s; wsUrl := wsUrl s |})).

Definition setConnectionToken (v : jsval) : M unit :=
  modify (with_st (fun s =>
    {| messages := messages s; input := input s; isTyping := isTyping s;
       isChatLoading := isChatLoading s; isWidgetOpen := isWidgetOpen s;
       hasNewMessage := hasNewMessage s;
       hasPendingBotResponse := hasPendingBotResponse s;
       contactId := contactId s; participantToken := participantToken s;
       connectionToken := v; wsUrl := wsUrl s |})).

Definition setWsUrl (v : jsval) : M unit :=
  modify (with_st (fun s =>
    {| messages := messages s; input := input s; isTyping := isTyping s;
       isChatLoading := isChatLoading s; isWidgetOpen := isWidgetOpen s;
       hasNewMessage := hasNewMessage s;
       hasPendingBotResponse := hasPendingBotResponse s;
       contactId := contactId s; participantToken := participantToken s;
       connectionToken := connectionToken s; wsUrl := v |})).

(** ** The browser platform *)

(** What the program takes from the browser: [JSON.parse] applied to a value
    ([None] when it throws), and whether [new WebSocket(url)] accepts the
    address ([false] when the constructor throws). *)
Record Platform : Type := mkPlatform {
  JSON_parse : jsval -> option jsval;
  WebSocket_accepts : jsval -> bool
}.

(** How an awaited [fetch] settles: the promise rejects, or a response
    arrives whose body [response.json()] reads ([None] when the body is not
    JSON).  [fetch] resolves for every HTTP status. *)
Inductive FetchOutcome : Type :=
| Rejected
| Responded (status : nat) (body : option jsval).

Definition response_json (o : FetchOutcome) : M jsval :=
  match o with
  | Rejected => throw "TypeError: Failed to fetch"
  | Responded _ (Some data) => ret data
  | Responded _ None => throw "SyntaxError"
  end.

Definition await_fetch (o : FetchOutcome) : M unit :=
  match o with
  | Rejected => throw "TypeError: Failed to fetch"
  | Responded _ _ => ret tt
  end.

Definition prop (v : jsval) (k : string) : M jsval :=
  or_throw "TypeError" (get_prop v k).

(** *** Sockets *)

Definition set_readyState (r : ReadyState) (sk : Socket) : Socket :=
  {| sock_url := sock_url sk; readyState := r;
     sock_isWidgetOpen := sock_isWidgetOpen sk |}.

Fixpoint update_nth {A} (i : nat) (f : A -> A) (l : list A) : list A :=
  match l, i with
  | [], _ => []
  | x :: rest, O => f x :: rest
  | x :: rest, S j => x :: update_nth j f rest
  end.

(** [ws.send(frame)]: raises while the socket is still connecting, is
    dropped once it is closing or closed. *)
Definition ws_send (i : nat) (frame : jsval) : M unit :=
  sks <- gets sockets ;;
  match nth_error sks i with
  | Some sk =>
      match readyState sk with
      | CONNECTING => throw "InvalidStateError"
      | OPEN => emit (WsSend i frame)
      | CLOSING | CLOSED => ret tt
      end
  | None => ret tt
  end.

(** [ws.close()] *)
Definition ws_close (i : nat) : M unit :=
  sks <- gets sockets ;;
  match nth_error sks i with
  | Some sk =>
      match readyState sk with
      | CONNECTING | OPEN =>
          set_sockets (update_nth i (set_readyState CLOSING) sks) ;;
          emit (WsClose i)
      | CLOSING | CLOSED => ret tt
      end
  | None => ret tt
  end.

(** [{ topic: 'aws/subscribe', content: { topics: ['aws/chat', 'aws/typing'] } }] *)
Definition subscribe_frame : jsval :=
  JObj [("topic", JStr "aws/subscribe");
        ("content", JObj [("topics", JArr [JStr "aws/chat"; JStr "aws/typing"])])].

(** [{ topic: 'aws/typing', content: { Type: 'TYPING', State: 'STOPPED' } }] *)
Definition typing_stopped_frame : jsval :=
  JObj [("topic", JStr "aws/typing");
        ("content", JObj [("Type", JStr "TYPING"); ("State", JStr "STOPPED")])].

(** [JSON.stringify] of an object literal, as its receiver reads it back:
    a property whose value is [undefined] is left out. *)
Definition is_undefined (v : jsval) : bool :=
  match v with
  | JUndefined => true
  | _ => false
  end.

Definition json_object (fields : list (string * jsval)) : jsval :=
  JObj (filter (fun kv => negb (is_undefined (snd kv))) fields).

(** [JSON.stringify({ connectionToken, content: userMessage.content })] *)
Definition send_body (token : jsval) (text : jsval) : jsval :=
  json_object [("connectionToken", token); ("content", text)].

Section App.

Variable P : Platform.

(** [new WebSocket(url)] inside [initializeChat]. *)
Definition new_WebSocket (url : jsval) (captured : bool) : M nat :=
  if WebSocket_accepts P url then
    sks <- gets sockets ;;
    let id := List.length sks in
    set_sockets (sks ++ [{| sock_url := url; readyState := CONNECTING;
                            sock_isWidgetOpen := captured |}]) ;;
    emit (NewWebSocket id url) ;;
    ret id
  else throw "SyntaxError".

(** [initializeChat], up to the [await fetch(...)]. *)
Definition initializeChat_start : M unit :=
  setIsChatLoading true ;;
  captured <- gets (fun w => isWidgetOpen (st w)) ;;
  emit FetchStartChat ;;
  pend <- gets pendingStart ;;
  set_pendingStart (pend ++ [captured]).

(** [if (!contactId || !participantToken || !websocketUrl)] *)
Definition missing_required (cid ptok url : jsval) : bool :=
  negb (truthy cid) || negb (truthy ptok) || negb (truthy url).

(** [initializeChat], from the settled [fetch] on. *)
Definition initializeChat_resume (captured : bool) (o : FetchOutcome) : M unit :=
  try_catch
    (data <- response_json o ;;
     cid <- prop data "contactId" ;;
     ptok <- prop data "participantToken" ;;
     url <- prop data "websocketUrl" ;;
     ctok <- prop data "connectionToken" ;;
     if missing_required cid ptok url then throw "Missing required data"
     else
       setContactId cid ;;
       setParticipantToken ptok ;;
       setWsUrl url ;;
       setConnectionToken ctok ;;
       ws <- new_WebSocket url captured ;;
       set_wsRef (Some ws))
    (fun _ =>
       emit (ConsoleError "Chat initialization failed:") ;;
       setIsChatLoading false).

(** [ws.onopen] of socket [i]. *)
Definition ws_onopen (i : nat) : M unit :=
  ws_send i subscribe_frame ;;
  setIsChatLoading false.

(** [ws.onmessage] of a socket whose closure holds [captured] for
    [isWidgetOpen]; [data] is [event.data]. *)
Definition ws_onmessage (captured : bool) (data : jsval) : M unit :=
  try_catch
    (receivedData <- or_throw "SyntaxError" (JSON_parse P data) ;;
     topic <- prop receivedData "topic" ;;
     if is_str topic "aws/chat" then
       raw <- prop receivedData "content" ;;
       chatContent <- or_throw "SyntaxError" (JSON_parse P raw) ;;
       ty <- prop chatContent "Type" ;;
       if is_str ty "MESSAGE" then
         role <- prop chatContent "ParticipantRole" ;;
         let isCustomerMessage := is_str role "CUSTOMER" in
         text <- prop chatContent "Content" ;;
         time <- prop chatContent "AbsoluteTime" ;;
         let newMessage :=
           {| content := text;
              sender := if isCustomerMessage then user else bot;
              timestamp := DateOf time;
              isLoading := None |} in
         if negb isCustomerMessage then
           setMessages (deliver newMessage) ;;
           setHasPendingBotResponse false ;;
           emit PlaySound ;;
           if negb captured then setHasNewMessage true else ret tt
         else ret tt
       else ret tt
     else if is_str topic "aws/typing" then
       raw <- prop receivedData "content" ;;
       typingContent <- or_throw "SyntaxError" (JSON_parse P raw) ;;
       ty <- prop typingContent "Type" ;;
       if is_str ty "TYPING" then
         state <- prop typingContent "State" ;;
         role <- prop typingContent "ParticipantRole" ;;
         setIsTyping (is_str state "STARTED" && negb (is_str role "CUSTOMER"))
       else ret tt
     else ret tt)
    (fun _ => emit (ConsoleError "WebSocket message error:")).

(** [ws.onerror] *)
Definition ws_onerror : M unit :=
  emit (ConsoleError "WebSocket error:") ;;
  setIsChatLoading false.

(** [ws.onclose] *)
Definition ws_onclose : M unit := setIsChatLoading false.

(** The effect on [[isWidgetOpen, initializeChat]]. *)
Definition widget_effect : M unit :=
  open <- gets (fun w => isWidgetOpen (st w)) ;;
  if open then initializeChat_start
  else
    (* Do not close WebSocket when minimized *)
    setMessages (fun prev => prev) ;;
    setIsTyping false ;;
    setInput "" ;;
    setHasPendingBotResponse false.

(** [setIsWidgetOpen(v)]: the effect reruns when the value changed. *)
Definition setIsWidgetOpen (v : bool) : M unit :=
  old <- gets (fun w => isWidgetOpen (st w)) ;;
  if Bool.eqb old v then ret tt
  else storeIsWidgetOpen v ;; widget_effect.

(** The guard of [handleSubmit]:
    [!input.trim() || !contactId || !participantToken || !wsUrl]. *)
Definition submit_blocked (s : State) : bool :=
  blank (input s) || negb (truthy (contactId s))
  || negb (truthy (participantToken s)) || negb (truthy (wsUrl s)).

(** The optimistic message [handleSubmit] builds. *)
Definition userMessage (text : string) (clock : Z) : Message :=
  {| content := JStr text; sender := user;
     timestamp := DateNow clock; isLoading := Some true |}.

(** [handleSubmit], up to the [await fetch(...)]. *)
Definition handleSubmit_start (clock : Z) : M unit :=
  s <- gets st ;;
  if submit_blocked s then ret tt
  else
    let um := userMessage (input s) clock in
    setMessages (fun prev => prev ++ [um]) ;;
    setInput "" ;;
    setHasPendingBotResponse true ;;
    emit (FetchSendMessage (send_body (connectionToken s) (content um))) ;;
    n <- gets pendingSend ;;
    set_pendingSend (S n).

(** [handleSubmit], from the settled [fetch] on. *)
Definition handleSubmit_resume (o : FetchOutcome) : M unit :=
  try_catch
    (await_fetch o ;;
     r <- gets wsRef ;;
     match r with
     | Some i => ws_send i typing_stopped_frame
     | None => ret tt
     end)
    (fun _ => emit (ConsoleError "Message failed:")).

Definition handleEndChat : M unit :=
  r <- gets wsRef ;;
  match r with
  | Some i => ws_close i
  | None => ret tt
  end ;;
  setMessages (fun _ => []) ;;
  setInput "" ;;
  setIsTyping false ;;
  setHasPendingBotResponse false ;;
  setContactId JNull ;;
  setParticipantToken JNull ;;
  set_wsRef None.

Definition handleClearMessages : M unit :=
  setMessages (fun _ => []).

Definition handleMinimizeChat : M unit :=
  setIsWidgetOpen false. (* Minimize chat (do not close WebSocket) *)

(** *** Events *)

(** What can happen to the mounted component: a click on one of its
    controls, a settled [fetch], or an event of one of its sockets.  No
    control is bound to [handleEndChat]; [EndChat] is its invocation. *)
Inductive Event : Type :=
| ClickOpen
| ClickMinimize
| ClickClear
| ChangeInput (v : string)
| Submit (clock : Z)
| EndChat
| StartChatSettled (o : FetchOutcome)
| SendSettled (o : FetchOutcome)
| WsOpened (i : nat)
| WsMessage (i : nat) (data : jsval)
| WsErrored (i : nat)
| WsClosed (i : nat).

(** The panel with the form and the clear and minimize buttons is rendered
    under [isWidgetOpen &&], the open button under [!isWidgetOpen &&]. *)
Definition when_widget (open : bool) (m : M unit) : M unit :=
  cur <- gets (fun w => isWidgetOpen (st w)) ;;
  if Bool.eqb cur open then m else ret tt.

Definition mark_socket (i : nat) (r : ReadyState) : M unit :=
  sks <- gets sockets ;;
  set_sockets (update_nth i (set_readyState r) sks).

Definition dispatch (e : Event) : M unit :=
  match e with
  | ClickOpen => when_widget false (setIsWidgetOpen true)
  | ClickMinimize => when_widget true handleMinimizeChat
  | ClickClear => when_widget true handleClearMessages
  | ChangeInput v => when_widget true (setInput v)
  | Submit clock => when_widget true (handleSubmit_start clock)
  | EndChat => handleEndChat
  | StartChatSettled o =>
      pend <- gets pendingStart ;;
      match pend with
      | captured :: rest =>
          set_pendingStart rest ;; initializeChat_resume captured o
      | [] => ret tt
      end
  | SendSettled o =>
      n <- gets pendingSend ;;
      match n with
      | S n' => set_pendingSend n' ;; handleSubmit_resume o
      | O => ret tt
      end
  | WsOpened i =>
      sks <- gets sockets ;;
      match nth_error sks i with
      | Some sk =>
          match readyState sk with
          | CONNECTING => mark_socket i OPEN ;; ws_onopen i
          | _ => ret tt
          end
      | None => ret tt
      end
  | WsMessage i data =>
      sks <- gets sockets ;;
      match nth_error sks i with
      | Some sk =>
          match readyState sk with
          | OPEN => ws_onmessage (sock_isWidgetOpen sk) data
          | _ => ret tt
          end
      | None => ret tt
      end
  | WsErrored i =>
      sks <- gets sockets ;;
      match nth_error sks i with
      | Some sk =>
          match readyState sk with
          | CLOSED => ret tt
          | _ => ws_onerror
          end
      | None => ret tt
      end
  | WsClosed i =>
      sks <- gets sockets ;;
      match nth_error sks i with
      | Some sk =>
          match readyState sk with
          | CLOSED => ret tt
          | _ => mark_socket i CLOSED ;; ws_onclose
          end
      | None => ret tt
      end
  end.

Definition step (w : Sys) (e : Event) : Sys := exec (dispatch e) w.

Definition run (es : list Event) (w : Sys) : Sys := fold_left step es w.

End App.

(** ** The chat API: [POST /api/send-message] *)

Module Server.

(** [new SendMessageCommand({ ConnectionToken, Content, ContentType })] *)
Record SendMessageCommand : Type := mkCommand {
  ConnectionToken : jsval;
  Content : jsval;
  ContentType : string
}.

(** How [client.send(command)] settles: a reply with [Id] and
    [AbsoluteTime], or an error with [message] and
    [$metadata?.httpStatusCode]. *)
Inductive AwsResult : Type :=
| AwsReply (Id AbsoluteTime : jsval)
| AwsError (message httpStatusCode : jsval).

Inductive ServerEffect : Type :=
| AwsSend (cmd : SendMessageCommand)
| LogError (label : string).

Record HttpResponse : Type := mkResponse {
  status : nat;
  body : jsval
}.

(** The handler applied to [req.body], with the outward transport given as
    the function [aws].  [None]: the destructuring of [req.body] raises
    before any response is written. *)
Definition send_message (aws : SendMessageCommand -> AwsResult) (req_body : jsval)
  : option (HttpResponse * list ServerEffect) :=
  match get_prop req_body "connectionToken", get_prop req_body "content" with
  | Some connectionToken, Some content =>
      if negb (truthy connectionToken) || negb (truthy content) then
        Some ({| status := 400;
                 body := json_object
                   [("error", JStr "MissingParameters");
                    ("message", JStr "connectionToken and content are required")] |},
              [])
      else
        let command :=
          {| ConnectionToken := connectionToken; Content := content;
             ContentType := "text/plain" |} in
        match aws command with
        | AwsReply id time =>
            Some ({| status := 200;
                     body := json_object
                       [("success", JBool true);
                        ("messageId", id);
                        ("messageTimestamp", time)] |},
                  [AwsSend command])
        | AwsError message code =>
            Some ({| status := 500;
                     body := json_object
                       [("error", JStr "MessageSendError");
                        ("message", message);
                        ("code", js_or code (JNum 500))] |},
                  [AwsSend command; LogError "Message Error:"])
        end
  | _, _ => None
  end.

(** The response as the client's [fetch] receives it. *)
Definition as_fetch (resp : HttpResponse) : FetchOutcome :=
  Responded (status resp) (Some (body resp)).

End Server.

(** ** Inbound frames by kind *)

(** What [ws.onmessage] makes of [event.data], read off its nested tests:
    a chat message, a typing event, a frame it ignores, or one on which it
    raises (and logs). *)
Inductive Inbound : Type :=
| ChatMessage (role text time : jsval)
| TypingEvent (state role : jsval)
| Ignored
| Malformed.

Definition classify_chat (inner : jsval) : Inbound :=
  match get_prop inner "Type" with
  | Some ty =>
      if is_str ty "MESSAGE" then
        match get_prop inner "ParticipantRole", get_prop inner "Content",
              get_prop inner "AbsoluteTime" with
        | Some role, Some text, Some time => ChatMessage role text time
        | _, _, _ => Malformed
        end
      else Ignored
  | None => Malformed
  end.

Definition classify_typing (inner : jsval) : Inbound :=
  match get_prop inner "Type" with
  | Some ty =>
      if is_str ty "TYPING" then
        match get_prop inner "State", get_prop inner "ParticipantRole" with
        | Some state, Some role => TypingEvent state role
        | _, _ => Malformed
        end
      else Ignored
  | None => Malformed
  end.

Definition classify (P : Platform) (data : jsval) : Inbound :=
  match JSON_parse P data with
  | Some outer =>
      match get_prop outer "topic", get_prop outer "content" with
      | Some topic, Some raw =>
          if is_str topic "aws/chat" then
            match JSON_parse P raw with
            | Some inner => classify_chat inner
            | None => Malformed
            end
          else if is_str topic "aws/typing" then
            match JSON_parse P raw with
            | Some inner => classify_typing inner
            | None => Malformed
            end
          else Ignored
      | _, _ => Malformed
      end
  | None => Malformed
  end.

(** The message [ws.onmessage] builds from a chat frame. *)
Definition newMessage (role text time : jsval) : Message :=
  {| content := text;
     sender := if is_str role "CUSTOMER" then user else bot;
     timestamp := DateOf time;
     isLoading := None |}.

(** The state change [ws.onmessage] makes for each kind of frame. *)
Definition on_inbound (captured : bool) (f : Inbound) : M unit :=
  match f with
  | ChatMessage role text time =>
      if is_str role "CUSTOMER" then ret tt
      else
        setMessages (deliver (newMessage role text time)) ;;
        setHasPendingBotResponse false ;;
        emit PlaySound ;;
        if negb captured then setHasNewMessage true else ret tt
  | TypingEvent state role =>
      setIsTyping (is_str state "STARTED" && negb (is_str role "CUSTOMER"))
  | Ignored => ret tt
  | Malformed => emit (ConsoleError "WebSocket message error:")
  end.

(** ** A concrete platform for worked examples *)

Module Demo.

(** The text of a frame is written as a short name; the table gives what
    [JSON.parse] returns for it.  Any other text is not JSON. *)
Definition texts : list (string * jsval) :=
  [("agent-hi-inner",
      JObj [("Type", JStr "MESSAGE"); ("ParticipantRole", JStr "AGENT");
            ("Content", JStr "hi"); ("AbsoluteTime", JStr "2024-01-01T00:00:00Z")]);
   ("agent-hi", JObj [("topic", JStr "aws/chat"); ("content", JStr "agent-hi-inner")]);
   ("echo-inner",
      JObj [("Type", JStr "MESSAGE"); ("ParticipantRole", JStr "CUSTOMER");
            ("Content", JStr "hello"); ("AbsoluteTime", JStr "2024-01-01T00:00:01Z")]);
   ("echo", JObj [("topic", JStr "aws/chat"); ("content", JStr "echo-inner")]);
   ("agent-typing-inner",
      JObj [("Type", JStr "TYPING"); ("State", JStr "STARTED");
            ("ParticipantRole", JStr "AGENT")]);
   ("agent-typing", JObj [("topic", JStr "aws/typing"); ("content", JStr "agent-typing-inner")]);
   ("agent-stopped-inner",
      JObj [("Type", JStr "TYPING"); ("State", JStr "STOPPED");
            ("ParticipantRole", JStr "AGENT")]);
   ("agent-stopped", JObj [("topic", JStr "aws/typing"); ("content", JStr "agent-stopped-inner")]);
   ("customer-typing-inner",
      JObj [("Type", JStr "TYPING"); ("State", JStr "STARTED");
            ("ParticipantRole", JStr "CUSTOMER")]);
   ("customer-typing", JObj [("topic", JStr "aws/typing"); ("content", JStr "customer-typing-inner")])].

Definition parse (v : jsval) : option jsval :=
  match v with
  | JStr s => assoc s texts
  | JNull => Some JNull
  | JBool b => Some (JBool b)
  | JNum n => Some (JNum n)
  | _ => None
  end.

(** Addresses with the [wss://] scheme are accepted. *)
Definition accepts (url : jsval) : bool :=
  match url with
  | JStr s => String.prefix "wss://" s
  | _ => false
  end.

Definition platform : Platform :=
  {| JSON_parse := parse; WebSocket_accepts := accepts |}.

(** Bootstrap responses of the chat API. *)
Definition full_response : FetchOutcome :=
  Responded 200 (Some (JObj [("contactId", JStr "c1");
                             ("participantToken", JStr "p1");
                             ("connectionToken", JStr "k1");
                             ("websocketUrl", JStr "wss://x")])).

Definition second_response : FetchOutcome :=
  Responded 200 (Some (JObj [("contactId", JStr "c2");
                             ("participantToken", JStr "p2");
                             ("connectionToken", JStr "k2");
                             ("websocketUrl", JStr "wss://y")])).

Definition response_without_connectionToken : FetchOutcome :=
  Responded 200 (Some (JObj [("contactId", JStr "c1");
                             ("participantToken", JStr "p1");
                             ("websocketUrl", JStr "wss://x")])).

Definition response_without_websocketUrl : FetchOutcome :=
  Responded 200 (Some (JObj [("contactId", JStr "c1");
                             ("participantToken", JStr "p1");
                             ("connectionToken", JStr "k1")])).

(** The widget opened, bootstrapped and subscribed. *)
Definition active : Sys :=
  run platform [ClickOpen; StartChatSettled full_response; WsOpened 0] initial_sys.

(** A message typed and submitted in the active widget. *)
Definition hello_sent : Sys :=
  run platform [ChangeInput "hello"; Submit 7] active.

(** The agent has started typing. *)
Definition agent_is_typing : Sys :=
  run platform [WsMessage 0 (JStr "agent-typing")] active.

End Demo.

(** ** Reasoning about handlers *)

(** [keeps I m]: the computation [m] takes states satisfying [I] to states
    satisfying [I], whether it returns or raises. *)
Definition keeps {A} (I : Sys -> Prop) (m : M A) : Prop :=
  forall w, I w -> I (snd (m w)).

(** The events that reset the log. *)
Definition resets (e : Event) : bool :=
  match e with
  | ClickClear | EndChat => true
  | _ => false
  end.

(** [m'] is the entry [m] with at most its [isLoading] flag changed. *)
Definition same_text (m m' : Message) : Prop :=
  content m' = content m /\ sender m' = sender m /\ timestamp m' = timestamp m.

(** [new] holds every entry of [old] at its index, with the same text, and
    no entry that had stopped loading is loading again. *)
Definition grows (old new : list Message) : Prop :=
  forall i m, nth_error old i = Some m ->
    exists m', nth_error new i = Some m' /\ same_text m m'
               /\ (loading m = false -> loading m' = false).

(** ** Session fields *)

Definition session_fields (s : State) : list jsval :=
  [contactId s; participantToken s; connectionToken s; wsUrl s].

Definition session_all_set (s : State) : bool :=
  forallb (fun v => negb (absent v)) (session_fields s).

Definition session_all_absent (s : State) : bool :=
  forallb absent (session_fields s).

(** [contactId] and [participantToken] are both [null], or both are set
    together with the push-channel address. *)
Definition session_consistent (s : State) : Prop :=
  (contactId s = JNull /\ participantToken s = JNull)
  \/ (truthy (contactId s) = true /\ truthy (participantToken s) = true
      /\ truthy (wsUrl s) = true).

(** The four fields [initializeChat] takes from a settled start-chat call,
    when it gets past its guard: [(contactId, participantToken,
    websocketUrl, connectionToken)]. *)
Definition bootstrap_data (o : FetchOutcome) : option (jsval * jsval * jsval * jsval) :=
  match o with
  | Responded _ (Some data) =>
      match get_prop data "contactId", get_prop data "participantToken",
            get_prop data "websocketUrl", get_prop data "connectionToken" with
      | Some cid, Some ptok, Some url, Some ctok =>
          if missing_required cid ptok url then None
          else Some (cid, ptok, url, ctok)
      | _, _, _, _ => None
      end
  | _ => None
  end.

(** The response carries no value under [k]. *)
Definition missing (data : jsval) (k : string) : bool :=
  match get_prop data k with
  | Some v => absent v
  | None => true
  end.

(** The [catch] block of [initializeChat]. *)
Definition initializeChat_failed : M unit :=
  emit (ConsoleError "Chat initialization failed:") ;;
  setIsChatLoading false.

(** ** Minimize and reopen *)

(** A click on the open button ([true]) or on the minimize button ([false]). *)
Definition toggle (b : bool) : Event :=
  if b then ClickOpen else ClickMinimize.

(** How many clicks of a sequence open a widget that was closed, starting
    from visibility [open]. *)
Fixpoint reopens (open : bool) (clicks : list bool) : nat :=
  match clicks with
  | [] => 0
  | b :: rest => (if b && negb open then 1 else 0) + reopens b rest
  end.

(** ** Failed sends *)


(** The response of the send endpoint to a request without its parameters. *)
Definition missing_parameters : Server.HttpResponse :=
  {| Server.status := 400;
     Server.body :=
       JObj [("error", JStr "MissingParameters");
             ("message", JStr "connectionToken and content are required")] |}.

(** ** The chat API: [POST /api/start-chat] *)

Module ChatApi.

(** The environment variables the endpoint reads. *)
Record Env : Type := mkEnv {
  AWS_REGION : jsval;
  AWS_ACCESS_KEY_ID : jsval;
  AWS_SECRET_ACCESS_KEY : jsval;
  AWS_INSTANCE_ID : jsval;
  AWS_CONTACT_FLOW_ID : jsval
}.

(** [{ region, credentials: { accessKeyId, secretAccessKey } }] *)
Record ClientConfig : Type := mkConfig {
  region : jsval;
  accessKeyId : jsval;
  secretAccessKey : jsval
}.

Definition client_config (env : Env) : ClientConfig :=
  {| region := AWS_REGION env;
     accessKeyId := AWS_ACCESS_KEY_ID env;
     secretAccessKey := AWS_SECRET_ACCESS_KEY env |}.

(** [new StartChatContactCommand({ InstanceId, ContactFlowId,
    ParticipantDetails: { DisplayName } })] *)
Record StartChatContactCommand : Type := mkStartChat {
  InstanceId : jsval;
  ContactFlowId : jsval;
  DisplayName : jsval
}.

(** [new CreateParticipantConnectionCommand({ ParticipantToken, Type })];
    the field [Type] is written [Type_]. *)
Record CreateParticipantConnectionCommand : Type := mkCreateConnection {
  ParticipantToken : jsval;
  Type_ : list string
}.

(** How an awaited [client.send(command)] settles: with the response
    object, or with an error carrying [message] and
    [$metadata?.httpStatusCode]. *)
Inductive Settled : Type :=
| Fulfilled (response : jsval)
| Failed (message httpStatusCode : jsval).

(** The two outward services. *)
Record Aws : Type := mkAws {
  connect_send : ClientConfig -> StartChatContactCommand -> Settled;
  participant_send : ClientConfig -> CreateParticipantConnectionCommand -> Settled
}.

Inductive Call : Type :=
| ConnectSend (cfg : ClientConfig) (cmd : StartChatContactCommand)
| ParticipantSend (cfg : ClientConfig) (cmd : CreateParticipantConnectionCommand)
| LogChatError.

(** The response written by the [catch] block. *)
Definition chat_error (message code : jsval) : Server.HttpResponse :=
  {| Server.status := 500;
     Server.body := json_object
       [("error", JStr "ChatInitializationError");
        ("message", message);
        ("code", js_or code (JNum 500))] |}.

(** [v?.k] *)
Definition optional_prop (v : jsval) (k : string) : option jsval :=
  if absent v then Some JUndefined else get_prop v k.

(** [responseData] *)
Definition response_data (cid ptok ctok url : jsval) : jsval :=
  json_object [("contactId", cid); ("participantToken", ptok);
               ("connectionToken", ctok); ("websocketUrl", url)].

(** The handler applied to [req.body].  [type_error k] is the message of the
    TypeError the engine raises when property [k] is read from [null] or
    [undefined]; such an error has no [$metadata]. *)
Definition start_chat (type_error : string -> jsval) (env : Env) (aws : Aws)
  (req_body : jsval) : Server.HttpResponse * list Call :=
  let cfg := client_config env in
  match get_prop req_body "displayName" with
  | None => (chat_error (type_error "displayName") JUndefined, [LogChatError])
  | Some displayName =>
      let startChatCmd :=
        {| InstanceId := AWS_INSTANCE_ID env;
           ContactFlowId := AWS_CONTACT_FLOW_ID env;
           DisplayName := js_or displayName (JStr "Customer") |} in
      match connect_send aws cfg startChatCmd with
      | Failed message code =>
          (chat_error message code, [ConnectSend cfg startChatCmd; LogChatError])
      | Fulfilled startResponse =>
          match get_prop startResponse "ParticipantToken" with
          | None =>
              (chat_error (type_error "ParticipantToken") JUndefined,
               [ConnectSend cfg startChatCmd; LogChatError])
          | Some ptok =>
              let connCmd :=
                {| ParticipantToken := ptok;
                   Type_ := ["WEBSOCKET"; "CONNECTION_CREDENTIALS"] |} in
              let calls := [ConnectSend cfg startChatCmd; ParticipantSend cfg connCmd] in
              match participant_send aws cfg connCmd with
              | Failed message code =>
                  (chat_error message code, calls ++ [LogChatError])
              | Fulfilled connResponse =>
                  match get_prop startResponse "ContactId",
                        get_prop connResponse "ConnectionCredentials",
                        get_prop connResponse "Websocket" with
                  | Some cid, Some credentials, Some websocket =>
                      match optional_prop credentials "ConnectionToken",
                            optional_prop websocket "Url" with
                      | Some ctok, Some url =>
                          ({| Server.status := 200;
                              Server.body := response_data cid ptok ctok url |},
                           calls)
                      | _, _ =>
                          (chat_error (type_error "ConnectionToken") JUndefined,
                           calls ++ [LogChatError])
                      end
                  | _, _, _ =>
                      (chat_error (type_error "ConnectionCredentials") JUndefined,
                       calls ++ [LogChatError])
                  end
              end
          end
      end
  end.

End ChatApi.

(** ** What the component renders *)

(** One chat line: the user's lines are laid out reversed with the user
    icon, the others with the bot icon. *)
Record Row : Type := mkRow {
  row_reversed : bool;
  row_icon : Sender;
  row_text : jsval
}.

Definition render_row (msg : Message) : Row :=
  {| row_reversed := Sender_eqb (sender msg) user;
     row_icon := sender msg;
     row_text := content msg |}.

(** The open panel: the loading overlay, the chat lines, the typing dots
    and the value of the input box. *)
Record Panel : Type := mkPanel {
  overlay : bool;
  rows : list Row;
  typing_dots : bool;
  input_value : string
}.

Inductive View : Type :=
| PanelView (p : Panel)
| OpenButton.

(** The JSX returned by [App]: the panel under [isWidgetOpen &&], the open
    button under [!isWidgetOpen &&]. *)
Definition render (s : State) : View :=
  if isWidgetOpen s then
    PanelView
      {| overlay := isChatLoading s && Nat.eqb (List.length (messages s)) 0;
         rows := map render_row (messages s);
         typing_dots := isTyping s || hasPendingBotResponse s;
         input_value := input s |}
  else OpenButton.

(** A value React renders as the child [{msg.content}] without looking
    inside it: a string, a number, a boolean, [null] or [undefined].  An
    object child makes React raise while rendering, so [render] describes
    the screen only for logs of such contents. *)
Definition plain_child (v : jsval) : bool :=
  match v with
  | JObj _ | JArr _ => false
  | _ => true
  end.

(** ** Invariants of reachable states *)

(** Every closure made so far holds [true] for [isWidgetOpen], and
    [hasNewMessage] is still [false]. *)
Definition closures_open (w : Sys) : Prop :=
  Forall (fun sk => sock_isWidgetOpen sk = true) (sockets w)
  /\ Forall (fun c => c = true) (pendingStart w)
  /\ hasNewMessage (st w) = false.

(** A user entry holds a non-blank text and a loading flag; any other entry
    holds no loading flag. *)
Definition entry_ok (m : Message) : bool :=
  match sender m with
  | user =>
      match content m, isLoading m with
      | JStr s, Some _ => negb (blank s)
      | _, _ => false
      end
  | bot =>
      match isLoading m with
      | None => true
      | Some _ => false
      end
  end.

(** [wsRef.current], when set, is the socket created last. *)
Definition current_is_latest (w : Sys) : Prop :=
  match wsRef w with
  | Some i => S i = List.length (sockets w)
  | None => True
  end.

Definition is_close (e : Effect) : bool :=
  match e with
  | WsClose _ => true
  | _ => false
  end.

Definition is_end (e : Event) : bool :=
  match e with
  | EndChat => true
  | _ => false
  end.

(** No bootstrap has passed the guard yet: no session, no socket, an empty
    log, and nothing sent. *)
Definition before_session (w : Sys) : Prop :=
  contactId (st w) = JNull /\ messages (st w) = [] /\ sockets w = []
  /\ wsRef w = None
  /\ forallb (fun e => match e with
                       | FetchSendMessage _ | WsSend _ _ | NewWebSocket _ _ => false
                       | _ => true
                       end) (trace w) = true.

(** The event is not a start-chat call settling past the guard. *)
Definition no_bootstrap (e : Event) : bool :=
  match e with
  | StartChatSettled o =>
      match bootstrap_data o with
      | Some _ => false
      | None => true
      end
  | _ => true
  end.

(** * Properties *)

(** On mount the widget is closed and the visibility effect runs its else
    branch, which leaves the initial state as it is. *)
Lemma mount_effect_noop : exec widget_effect initial_sys = initial_sys.
Proof. reflexivity. Qed.

(** ** The inbound handler, frame kind by frame kind *)

Lemma get_prop_some_content (v : jsval) (k k' : string) (x : jsval) :
  get_prop v k = Some x -> exists y, get_prop v k' = Some y.
Proof.
  destruct v; cbn; try discriminate; intros _;
    try (now exists JUndefined).
  destruct (assoc k' fields); eauto.
Qed.

Lemma ws_onmessage_classify (P : Platform) (captured : bool) (data : jsval) (w : Sys) :
  ws_onmessage P captured data w = on_inbound captured (classify P data) w.
Proof.
  unfold ws_onmessage, classify, try_catch, bind, or_throw, prop.
  destruct (JSON_parse P data) as [outer|]; cbn; [|reflexivity].
  destruct (get_prop outer "topic") as [topic|] eqn:Ht; cbn; [|reflexivity].
  destruct (get_prop_some_content _ _ "content" _ Ht) as [raw Hr].
  rewrite Hr.
  destruct (is_str topic "aws/chat").
  - cbn. destruct (JSON_parse P raw) as [inner|]; cbn; [|reflexivity].
    unfold classify_chat.
    destruct (get_prop inner "Type") as [ty|] eqn:Hty; cbn; [|reflexivity].
    destruct (get_prop_some_content _ _ "ParticipantRole" _ Hty) as [role Hrole].
    destruct (get_prop_some_content _ _ "Content" _ Hty) as [text Htext].
    destruct (get_prop_some_content _ _ "AbsoluteTime" _ Hty) as [time Htime].
    rewrite Hrole, Htext, Htime.
    destruct (is_str ty "MESSAGE"); cbn; [|reflexivity].
    unfold newMessage.
    destruct (is_str role "CUSTOMER"); cbn; [reflexivity|].
    destruct captured; reflexivity.
  - destruct (is_str topic "aws/typing"); cbn; [|reflexivity].
    destruct (JSON_parse P raw) as [inner|]; cbn; [|reflexivity].
    unfold classify_typing.
    destruct (get_prop inner "Type") as [ty|] eqn:Hty; cbn; [|reflexivity].
    destruct (get_prop_some_content _ _ "State" _ Hty) as [state Hstate].
    destruct (get_prop_some_content _ _ "ParticipantRole" _ Hty) as [role Hrole].
    rewrite Hstate, Hrole.
    destruct (is_str ty "TYPING"); reflexivity.
Qed.

Lemma exec_ws_onmessage (P : Platform) (captured : bool) (data : jsval) (w : Sys) :
  exec (ws_onmessage P captured data) w
  = exec (on_inbound captured (classify P data)) w.
Proof. unfold exec. now rewrite ws_onmessage_classify. Qed.

(** C9. A chat message delivered by the push channel whose participant role
    is the local one (CUSTOMER) is dropped: the handler leaves the whole
    system as it was (nothing appended to the log, no pending flag flipped,
    no effect emitted), and so does the socket event that carries it. *)
Theorem local_echo_discarded
  (P : Platform) (captured : bool) (data role text time : jsval) (w : Sys) :
  classify P data = ChatMessage role text time ->
  is_str role "CUSTOMER" = true ->
  exec (ws_onmessage P captured data) w = w
  /\ forall i, step P w (WsMessage i data) = w.
Proof.
  intros Hc Hrole.
  assert (H : exec (ws_onmessage P captured data) w = w).
  { rewrite exec_ws_onmessage, Hc. cbn. now rewrite Hrole. }
  split; [exact H|].
  intros i. unfold step, dispatch, exec, bind, gets. cbn.
  destruct (nth_error (sockets w) i) as [sk|]; [|reflexivity].
  destruct (readyState sk); try reflexivity.
  rewrite ws_onmessage_classify, Hc. cbn. now rewrite Hrole.
Qed.

Lemma local_echo_discarded_witness :
  exec (ws_onmessage Demo.platform true (JStr "echo")) Demo.hello_sent
  = Demo.hello_sent.
Proof.
  exact (proj1 (local_echo_discarded Demo.platform true (JStr "echo")
                  (JStr "CUSTOMER") (JStr "hello") (JStr "2024-01-01T00:00:01Z")
                  Demo.hello_sent eq_refl eq_refl)).
Defined.

(** C5. For a typing-topic frame of inner type TYPING, the Typing Signal
    after handling it is true exactly when the state is STARTED and the role
    is not CUSTOMER, whatever it was before: STOPPED clears it, and STARTED
    from the local role clears it. *)
Theorem typing_signal_mirrors_event
  (P : Platform) (captured : bool) (data state role : jsval) (w : Sys) :
  classify P data = TypingEvent state role ->
  let w' := exec (ws_onmessage P captured data) w in
  isTyping (st w') = is_str state "STARTED" && negb (is_str role "CUSTOMER")
  /\ (is_str state "STOPPED" = true -> isTyping (st w') = false)
  /\ (is_str role "CUSTOMER" = true -> isTyping (st w') = false).
Proof.
  intros Hc w'.
  assert (H : isTyping (st w')
              = is_str state "STARTED" && negb (is_str role "CUSTOMER")).
  { subst w'. rewrite exec_ws_onmessage, Hc. reflexivity. }
  rewrite H. split; [reflexivity|]. split.
  - destruct state as [| | | |s| |]; cbn; try discriminate.
    intros Hs. apply String.eqb_eq in Hs. subst s. reflexivity.
  - intros ->. apply andb_false_r.
Qed.

Lemma typing_signal_mirrors_event_witness :
  isTyping (st (exec (ws_onmessage Demo.platform true (JStr "agent-stopped"))
                  Demo.agent_is_typing)) = false.
Proof.
  exact (proj1 (typing_signal_mirrors_event Demo.platform true
                  (JStr "agent-stopped") (JStr "STOPPED") (JStr "AGENT")
                  Demo.agent_is_typing eq_refl)).
Defined.

(** C3, as the code has it.  Handling a chat message from a non-local
    participant clears the pending-bot-response flag and leaves the Typing
    Signal as it was. *)
Theorem remote_message_keeps_typing_signal
  (P : Platform) (captured : bool) (data role text time : jsval) (w : Sys) :
  classify P data = ChatMessage role text time ->
  is_str role "CUSTOMER" = false ->
  let w' := exec (ws_onmessage P captured data) w in
  isTyping (st w') = isTyping (st w)
  /\ hasPendingBotResponse (st w') = false.
Proof.
  intros Hc Hrole w'. subst w'.
  rewrite exec_ws_onmessage, Hc. cbn. rewrite Hrole.
  destruct captured; split; reflexivity.
Qed.

Lemma remote_message_keeps_typing_signal_witness :
  isTyping (st (exec (ws_onmessage Demo.platform true (JStr "agent-hi"))
                  Demo.hello_sent))
  = isTyping (st Demo.hello_sent).
Proof.
  exact (proj1 (remote_message_keeps_typing_signal Demo.platform true
                  (JStr "agent-hi") (JStr "AGENT") (JStr "hi")
                  (JStr "2024-01-01T00:00:00Z") Demo.hello_sent
                  eq_refl eq_refl)).
Defined.

(** C3 as stated fails: the agent's typing event sets the Typing Signal, and
    the agent's message that follows is delivered with the signal still
    true. *)
Lemma remote_message_typing_signal_stays_true :
  classify Demo.platform (JStr "agent-hi")
  = ChatMessage (JStr "AGENT") (JStr "hi") (JStr "2024-01-01T00:00:00Z")
  /\ is_str (JStr "AGENT") "CUSTOMER" = false
  /\ isTyping (st Demo.agent_is_typing) = true
  /\ isTyping (st (exec (ws_onmessage Demo.platform true (JStr "agent-hi"))
                     Demo.agent_is_typing)) = true
  /\ isTyping (st (step Demo.platform Demo.agent_is_typing
                     (WsMessage 0 (JStr "agent-hi")))) = true.
Proof. vm_compute. repeat split. Qed.


(** ** Invariants through the handler monad *)

Section Keeps.

Variable I : Sys -> Prop.

Lemma keeps_ret {A} (a : A) : keeps I (ret a).
Proof. intros w Hw. exact Hw. Qed.

Lemma keeps_throw {A} (err : string) : keeps I (@throw A err).
Proof. intros w Hw. exact Hw. Qed.

Lemma keeps_gets {A} (f : Sys -> A) : keeps I (gets f).
Proof. intros w Hw. exact Hw. Qed.

Lemma keeps_or_throw {A} (err : string) (o : option A) : keeps I (or_throw err o).
Proof. destruct o; intros w Hw; exact Hw. Qed.

Lemma keeps_modify (f : Sys -> Sys) :
  (forall w, I w -> I (f w)) -> keeps I (modify f).
Proof. intros H w Hw. apply H, Hw. Qed.

Lemma keeps_bind {A B} (m : M A) (k : A -> M B) :
  keeps I m -> (forall a, keeps I (k a)) -> keeps I (bind m k).
Proof.
  intros Hm Hk w Hw. unfold bind.
  specialize (Hm w Hw). destruct (m w) as [[a|e] w1]; cbn in *.
  - apply Hk, Hm.
  - exact Hm.
Qed.

Lemma keeps_try_catch {A} (body : M A) (handler : string -> M A) :
  keeps I body -> (forall e, keeps I (handler e)) -> keeps I (try_catch body handler).
Proof.
  intros Hb Hh w Hw. unfold try_catch.
  specialize (Hb w Hw). destruct (body w) as [[a|e] w1]; cbn in *.
  - exact Hb.
  - apply Hh, Hb.
Qed.

End Keeps.

Ltac keeps_step :=
  match goal with
  | |- keeps _ (bind _ _) => apply keeps_bind; [|intros ?]
  | |- keeps _ (try_catch _ _) => apply keeps_try_catch; [|intros ?]
  | |- keeps _ (ret _) => apply keeps_ret
  | |- keeps _ (throw _) => apply keeps_throw
  | |- keeps _ (gets _) => apply keeps_gets
  | |- keeps _ (or_throw _ _) => apply keeps_or_throw
  | |- keeps _ (modify _) => apply keeps_modify; intros ? ?
  | |- keeps _ (match ?x with _ => _ end) => destruct x
  end.

Ltac open_handlers :=
  unfold handleMinimizeChat, handleClearMessages, handleEndChat,
    handleSubmit_start, handleSubmit_resume, initializeChat_resume,
    initializeChat_start, setIsWidgetOpen, widget_effect, when_widget,
    ws_onopen, ws_onmessage, ws_onerror, ws_onclose, ws_send, ws_close,
    mark_socket, new_WebSocket, response_json, await_fetch, prop,
    emit, set_wsRef, set_sockets, set_pendingStart, set_pendingSend,
    setMessages, setInput, setIsTyping, setIsChatLoading, storeIsWidgetOpen,
    setHasNewMessage, setHasPendingBotResponse, setContactId,
    setParticipantToken, setConnectionToken, setWsUrl.

(** Reduces [keeps I m] to one goal [I (f w)] per state update in [m]. *)
Ltac keeps_go := repeat (open_handlers; keeps_step).

(** ** The log only grows between resets *)

Lemma grows_refl (l : list Message) : grows l l.
Proof. intros i m H. exists m. repeat split; auto. Qed.

Lemma grows_trans (a b c : list Message) : grows a b -> grows b c -> grows a c.
Proof.
  intros Hab Hbc i m H.
  destruct (Hab i m H) as (m1 & H1 & (Ec & Es & Et) & L1).
  destruct (Hbc i m1 H1) as (m2 & H2 & (Ec' & Es' & Et') & L2).
  exists m2. repeat split; try congruence. auto.
Qed.

Lemma grows_app (l extra : list Message) : grows l (l ++ extra).
Proof.
  intros i m H. exists m. repeat split; auto.
  rewrite nth_error_app1; [exact H|].
  apply nth_error_Some. congruence.
Qed.

Lemma loading_ack (m : Message) : loading m = false -> loading (ack m) = false.
Proof. unfold ack. destruct (pending m); auto. Qed.

Lemma same_text_ack (m : Message) : same_text m (ack m).
Proof. unfold ack, same_text. destruct (pending m); cbn; auto. Qed.

Lemma grows_deliver (l : list Message) (m : Message) : grows l (deliver m l).
Proof.
  intros i x H. exists (ack x). unfold deliver.
  split; [|split; [apply same_text_ack | apply loading_ack]].
  rewrite nth_error_app1.
  - rewrite nth_error_map, H. reflexivity.
  - rewrite length_map. apply nth_error_Some. congruence.
Qed.

Lemma dispatch_grows (P : Platform) (l0 : list Message) (e : Event) :
  resets e = false ->
  keeps (fun w => grows l0 (messages (st w))) (dispatch P e).
Proof.
  intros He. destruct e; try discriminate He; unfold dispatch.
  all: keeps_go.
  all: cbn; try assumption.
  all: eapply grows_trans;
    [eassumption | first [apply grows_app | apply grows_deliver]].
Qed.

Lemma run_grows (P : Platform) (es : list Event) (w : Sys) :
  forallb (fun e => negb (resets e)) es = true ->
  grows (messages (st w)) (messages (st (run P es w))).
Proof.
  revert w. induction es as [|e es IH]; intros w H; cbn in *.
  - apply grows_refl.
  - apply andb_true_iff in H. destruct H as [He Hes].
    apply negb_true_iff in He.
    eapply grows_trans; [|apply IH, Hes].
    apply (dispatch_grows P (messages (st w)) e He w), grows_refl.
Qed.

Lemma pending_ack (m : Message) : pending (ack m) = false.
Proof.
  unfold ack. destruct (pending m) eqn:Hp; [reflexivity | exact Hp].
Qed.

(** C4. When a chat message from a non-local participant is handled, the
    log becomes the previous log with every pending local message flipped to
    not pending, followed by the remote message: each earlier entry keeps its
    index and text, none is pending afterwards, entries that were not
    pending are untouched, and the remote message sits after them.  Between
    resets of the log no later event makes an entry that has stopped loading
    load again. *)
Theorem remote_message_acks_pending
  (P : Platform) (captured : bool) (data role text time : jsval) (w : Sys) :
  classify P data = ChatMessage role text time ->
  is_str role "CUSTOMER" = false ->
  let prev := messages (st w) in
  let now := messages (st (exec (ws_onmessage P captured data) w)) in
  now = map ack prev ++ [newMessage role text time]
  /\ (forall i m, nth_error prev i = Some m ->
        exists m', nth_error now i = Some m' /\ same_text m m'
                   /\ pending m' = false
                   /\ (pending m = true -> isLoading m' = Some false)
                   /\ (pending m = false -> m' = m))
  /\ nth_error now (List.length prev) = Some (newMessage role text time)
  /\ sender (newMessage role text time) = bot
  /\ (forall (w0 : Sys) (es : list Event),
        forallb (fun e => negb (resets e)) es = true ->
        grows (messages (st w0)) (messages (st (run P es w0)))).
Proof.
  intros Hc Hrole prev now.
  assert (Hnow : now = map ack prev ++ [newMessage role text time]).
  { subst now prev. rewrite exec_ws_onmessage, Hc. cbn. rewrite Hrole.
    destruct captured; reflexivity. }
  split; [exact Hnow|]. split; [|split; [|split]].
  - intros i m Hi. exists (ack m). rewrite Hnow.
    split; [|split; [apply same_text_ack|split; [apply pending_ack|split]]].
    + rewrite nth_error_app1.
      * rewrite nth_error_map, Hi. reflexivity.
      * rewrite length_map. apply nth_error_Some. congruence.
    + unfold ack. intros ->. reflexivity.
    + unfold ack. intros ->. reflexivity.
  - rewrite Hnow, nth_error_app2; rewrite length_map; [|lia].
    rewrite Nat.sub_diag. reflexivity.
  - unfold newMessage. cbn. rewrite Hrole. reflexivity.
  - intros w0 es Hes. apply run_grows, Hes.
Qed.

Lemma remote_message_acks_pending_witness :
  messages (st (exec (ws_onmessage Demo.platform true (JStr "agent-hi"))
                  Demo.hello_sent))
  = map ack (messages (st Demo.hello_sent))
    ++ [newMessage (JStr "AGENT") (JStr "hi") (JStr "2024-01-01T00:00:00Z")].
Proof.
  exact (proj1 (remote_message_acks_pending Demo.platform true
                  (JStr "agent-hi") (JStr "AGENT") (JStr "hi")
                  (JStr "2024-01-01T00:00:00Z") Demo.hello_sent
                  eq_refl eq_refl)).
Defined.

(** ** Bootstrap *)

Lemma absent_not_truthy (v : jsval) : absent v = true -> truthy v = false.
Proof. destruct v; cbn; congruence. Qed.

Lemma missing_required_false (cid ptok url : jsval) :
  missing_required cid ptok url = false ->
  truthy cid = true /\ truthy ptok = true /\ truthy url = true.
Proof.
  unfold missing_required. intros H.
  apply orb_false_iff in H. destruct H as [H Hu].
  apply orb_false_iff in H. destruct H as [Hc Hp].
  apply negb_false_iff in Hc, Hp, Hu. auto.
Qed.

Lemma bootstrap_data_truthy (o : FetchOutcome) (cid ptok url ctok : jsval) :
  bootstrap_data o = Some (cid, ptok, url, ctok) ->
  truthy cid = true /\ truthy ptok = true /\ truthy url = true.
Proof.
  unfold bootstrap_data.
  destruct o as [|n [data|]]; try discriminate.
  destruct (get_prop data "contactId") as [c|]; try discriminate.
  destruct (get_prop data "participantToken") as [p|]; try discriminate.
  destruct (get_prop data "websocketUrl") as [u|]; try discriminate.
  destruct (get_prop data "connectionToken") as [k|]; try discriminate.
  destruct (missing_required c p u) eqn:Hm; try discriminate.
  intros H. injection H as <- <- <- <-.
  apply missing_required_false, Hm.
Qed.

Lemma initializeChat_resume_fails
  (P : Platform) (captured : bool) (o : FetchOutcome) (w : Sys) :
  bootstrap_data o = None ->
  exec (initializeChat_resume P captured o) w = exec initializeChat_failed w.
Proof.
  unfold bootstrap_data, initializeChat_resume, initializeChat_failed, exec.
  unfold try_catch, bind, response_json, prop, or_throw.
  destruct o as [|n [data|]]; cbn; try reflexivity.
  destruct (get_prop data "contactId") as [cid|]; cbn; [|reflexivity].
  destruct (get_prop data "participantToken") as [ptok|]; cbn; [|reflexivity].
  destruct (get_prop data "websocketUrl") as [url|]; cbn; [|reflexivity].
  destruct (get_prop data "connectionToken") as [ctok|]; cbn; [|reflexivity].
  destruct (missing_required cid ptok url); cbn; [reflexivity|discriminate].
Qed.

Lemma initializeChat_resume_stores
  (P : Platform) (captured : bool) (o : FetchOutcome)
  (cid ptok url ctok : jsval) (w : Sys) :
  bootstrap_data o = Some (cid, ptok, url, ctok) ->
  let w' := exec (initializeChat_resume P captured o) w in
  (contactId (st w') = cid /\ participantToken (st w') = ptok
   /\ wsUrl (st w') = url /\ connectionToken (st w') = ctok
   /\ messages (st w') = messages (st w))
  /\ (WebSocket_accepts P url = true ->
        wsRef w' = Some (List.length (sockets w))
        /\ sockets w' = sockets w ++ [{| sock_url := url; readyState := CONNECTING;
                                         sock_isWidgetOpen := captured |}]
        /\ trace w' = trace w ++ [NewWebSocket (List.length (sockets w)) url])
  /\ (WebSocket_accepts P url = false ->
        wsRef w' = wsRef w /\ sockets w' = sockets w
        /\ trace w' = trace w ++ [ConsoleError "Chat initialization failed:"]).
Proof.
  intros H. cbv zeta. unfold bootstrap_data in H.
  destruct o as [|n [data|]]; try discriminate.
  unfold initializeChat_resume, exec.
  unfold try_catch, bind, response_json, prop, or_throw, new_WebSocket; cbn.
  destruct (get_prop data "contactId") as [cid'|]; [|discriminate].
  destruct (get_prop data "participantToken") as [ptok'|]; [|discriminate].
  destruct (get_prop data "websocketUrl") as [url'|]; [|discriminate].
  destruct (get_prop data "connectionToken") as [ctok'|]; [|discriminate].
  cbn.
  destruct (missing_required cid' ptok' url'); [discriminate|].
  injection H as -> -> -> ->. cbn.
  destruct (WebSocket_accepts P url); cbn.
  - repeat split; intros; congruence.
  - repeat split; intros; congruence.
Qed.

(** ** Session identity *)

Lemma handleEndChat_clears (w : Sys) :
  let w' := exec handleEndChat w in
  contactId (st w') = JNull /\ participantToken (st w') = JNull
  /\ messages (st w') = [] /\ isTyping (st w') = false
  /\ wsRef w' = None.
Proof.
  cbv zeta. unfold handleEndChat, exec.
  unfold bind, gets; cbn.
  destruct (wsRef w) as [i|]; cbn; [|repeat split].
  unfold ws_close, bind, gets; cbn.
  destruct (nth_error (sockets w) i) as [sk|]; cbn; [|repeat split].
  destruct (readyState sk); cbn; repeat split.
Qed.

Lemma initializeChat_resume_consistent
  (P : Platform) (captured : bool) (o : FetchOutcome) :
  keeps (fun w => session_consistent (st w)) (initializeChat_resume P captured o).
Proof.
  intros w Hw. change (session_consistent (st (exec (initializeChat_resume P captured o) w))).
  destruct (bootstrap_data o) as [[[[cid ptok] url] ctok]|] eqn:Hb.
  - destruct (initializeChat_resume_stores P captured o cid ptok url ctok w Hb)
      as [(Hc & Hp & Hu & _) _].
    destruct (bootstrap_data_truthy o cid ptok url ctok Hb) as (T1 & T2 & T3).
    right. rewrite Hc, Hp, Hu. auto.
  - rewrite (initializeChat_resume_fails P captured o w Hb). exact Hw.
Qed.

Lemma dispatch_consistent (P : Platform) (e : Event) :
  keeps (fun w => session_consistent (st w)) (dispatch P e).
Proof.
  destruct e; unfold dispatch.
  6: { intros w _. left.
       destruct (handleEndChat_clears w) as (Hc & Hp & _). split; assumption. }
  6: { apply keeps_bind; [apply keeps_gets|]. intros [|c rest]; [apply keeps_ret|].
       apply keeps_bind; [|intros _; apply initializeChat_resume_consistent].
       keeps_go. cbn. assumption. }
  all: keeps_go; cbn; assumption.
Qed.

Lemma run_consistent (P : Platform) (es : list Event) (w : Sys) :
  session_consistent (st w) -> session_consistent (st (run P es w)).
Proof.
  revert w. induction es as [|e es IH]; intros w Hw; cbn; [exact Hw|].
  apply IH. apply (dispatch_consistent P e w Hw).
Qed.

(** C1, as the code has it.  In every state reached from the mounted
    component, [contactId] and [participantToken] are set together or absent
    together, and whenever they are set the push-channel address is set too.
    A bootstrap that passes the guard stores the three of them at once and
    stores [connectionToken] as the response gives it, possibly absent.
    After [handleEndChat], [contactId] and [participantToken] are absent. *)
Theorem session_identity_invariant :
  (forall (P : Platform) (es : list Event),
      session_consistent (st (run P es initial_sys)))
  /\ (forall (P : Platform) (captured : bool) (o : FetchOutcome)
             (cid ptok url ctok : jsval) (w : Sys),
        bootstrap_data o = Some (cid, ptok, url, ctok) ->
        let s := st (exec (initializeChat_resume P captured o) w) in
        contactId s = cid /\ participantToken s = ptok /\ wsUrl s = url
        /\ connectionToken s = ctok
        /\ truthy cid = true /\ truthy ptok = true /\ truthy url = true)
  /\ (forall w : Sys,
        let s := st (exec handleEndChat w) in
        absent (contactId s) = true /\ absent (participantToken s) = true).
Proof.
  split; [|split].
  - intros P es. apply run_consistent. left. split; reflexivity.
  - intros P captured o cid ptok url ctok w Hb s. subst s.
    destruct (initializeChat_resume_stores P captured o cid ptok url ctok w Hb)
      as [(Hc & Hp & Hu & Hk & _) _].
    repeat (split; [assumption|]).
    exact (bootstrap_data_truthy o cid ptok url ctok Hb).
  - intros w s. subst s.
    destruct (handleEndChat_clears w) as (Hc & Hp & _).
    rewrite Hc, Hp. split; reflexivity.
Qed.

Lemma session_identity_invariant_witness :
  connectionToken
    (st (exec (initializeChat_resume Demo.platform true
                 Demo.response_without_connectionToken) initial_sys))
  = JUndefined.
Proof.
  pose proof (proj1 (proj2 session_identity_invariant) Demo.platform true
                Demo.response_without_connectionToken
                (JStr "c1") (JStr "p1") (JStr "wss://x") JUndefined
                initial_sys eq_refl) as H.
  exact (proj1 (proj2 (proj2 (proj2 H)))).
Defined.

(** C1 as stated fails twice.  A bootstrap response without
    [connectionToken] passes the guard and leaves three fields set and one
    absent; and [handleEndChat] on a fully set session leaves
    [connectionToken] and the push-channel address set. *)
Lemma session_fields_partially_set :
  (let s := st (run Demo.platform
                  [ClickOpen;
                   StartChatSettled Demo.response_without_connectionToken;
                   WsOpened 0] initial_sys) in
   session_all_set s = false /\ session_all_absent s = false
   /\ session_fields s = [JStr "c1"; JStr "p1"; JUndefined; JStr "wss://x"])
  /\ (session_all_set (st Demo.active) = true
      /\ let s := st (exec handleEndChat Demo.active) in
         session_all_absent s = false /\ session_all_set s = false
         /\ session_fields s = [JNull; JNull; JStr "k1"; JStr "wss://x"]).
Proof. vm_compute. repeat split. Qed.

(** ** Minimize and reopen *)

Lemma toggle_step (P : Platform) (b : bool) (w : Sys) :
  let w' := step P w (toggle b) in
  isWidgetOpen (st w') = b
  /\ messages (st w') = messages (st w)
  /\ session_fields (st w') = session_fields (st w)
  /\ wsRef w' = wsRef w
  /\ sockets w' = sockets w
  /\ trace w'
     = trace w ++ repeat FetchStartChat (if b && negb (isWidgetOpen (st w)) then 1 else 0).
Proof.
  cbv zeta. unfold step, exec, toggle.
  destruct b; unfold dispatch, when_widget, handleMinimizeChat,
    setIsWidgetOpen, bind, gets; cbn;
    destruct (isWidgetOpen (st w)) eqn:E; cbn;
    rewrite ?E, ?app_nil_r; cbn; repeat split; auto.
Qed.

(** C2, as the code has it.  Over any sequence of minimize and reopen
    clicks the Conversation Log, the Session fields, the current socket and
    every socket made so far stay as they were, and no socket is closed; but
    every click that reopens the widget issues a new start-chat call.  When
    such a call settles with the required fields and an address the
    WebSocket constructor accepts, a new Session is stored, a new socket is
    created next to the earlier ones and becomes the current one. *)
Theorem minimize_reopen_keeps_log_and_rebootstraps :
  (forall (P : Platform) (clicks : list bool) (w : Sys),
      let w' := run P (map toggle clicks) w in
      messages (st w') = messages (st w)
      /\ session_fields (st w') = session_fields (st w)
      /\ wsRef w' = wsRef w
      /\ sockets w' = sockets w
      /\ trace w'
         = trace w ++ repeat FetchStartChat (reopens (isWidgetOpen (st w)) clicks))
  /\ (forall (P : Platform) (captured : bool) (o : FetchOutcome)
             (cid ptok url ctok : jsval) (w : Sys),
        bootstrap_data o = Some (cid, ptok, url, ctok) ->
        WebSocket_accepts P url = true ->
        let w' := exec (initializeChat_resume P captured o) w in
        session_fields (st w') = [cid; ptok; ctok; url]
        /\ messages (st w') = messages (st w)
        /\ wsRef w' = Some (List.length (sockets w))
        /\ sockets w'
           = sockets w ++ [{| sock_url := url; readyState := CONNECTING;
                              sock_isWidgetOpen := captured |}]
        /\ trace w' = trace w ++ [NewWebSocket (List.length (sockets w)) url]).
Proof.
  split.
  - intros P clicks. induction clicks as [|b rest IH]; intros w; cbv zeta.
    + cbn. rewrite app_nil_r. repeat split.
    + change (run P (map toggle (b :: rest)) w)
        with (run P (map toggle rest) (step P w (toggle b))).
      cbn [reopens].
      destruct (toggle_step P b w) as (Ho & Hm & Hs & Hr & Hk & Ht).
      specialize (IH (step P w (toggle b))). cbv zeta in IH.
      destruct IH as (Im & Is & Ir & Ik & It).
      rewrite Im, Is, Ir, Ik, It, Hm, Hs, Hr, Hk, Ht, Ho.
      repeat split.
      rewrite <- app_assoc, repeat_app. reflexivity.
  - intros P captured o cid ptok url ctok w Hb Ha. cbv zeta.
    destruct (initializeChat_resume_stores P captured o cid ptok url ctok w Hb)
      as [(Hc & Hp & Hu & Hk & Hm) [Hyes _]].
    destruct (Hyes Ha) as (Hr & Hs & Ht).
    unfold session_fields. rewrite Hc, Hp, Hu, Hk.
    repeat split; assumption.
Qed.

Lemma minimize_reopen_keeps_log_and_rebootstraps_witness :
  wsRef (exec (initializeChat_resume Demo.platform true Demo.second_response)
           (run Demo.platform [ClickMinimize; ClickOpen] Demo.active))
  = Some 1.
Proof.
  pose proof (proj2 minimize_reopen_keeps_log_and_rebootstraps
                Demo.platform true Demo.second_response
                (JStr "c2") (JStr "p2") (JStr "wss://y") (JStr "k2")
                (run Demo.platform [ClickMinimize; ClickOpen] Demo.active)
                eq_refl eq_refl) as H.
  exact (proj1 (proj2 (proj2 H))).
Defined.

(** C2 as stated fails.  In the active widget a minimize followed by a
    reopen issues a second start-chat call; when it settles, the Session
    fields are replaced, a second socket is created and becomes the current
    one, and the first socket is still open. *)
Lemma reopen_bootstraps_again :
  let before := Demo.active in
  let reopened := run Demo.platform [ClickMinimize; ClickOpen] before in
  let settled := step Demo.platform reopened (StartChatSettled Demo.second_response) in
  trace reopened = trace before ++ [FetchStartChat]
  /\ wsRef before = Some 0
  /\ wsRef settled = Some 1
  /\ session_fields (st before) = [JStr "c1"; JStr "p1"; JStr "k1"; JStr "wss://x"]
  /\ session_fields (st settled) = [JStr "c2"; JStr "p2"; JStr "k2"; JStr "wss://y"]
  /\ map readyState (sockets settled) = [OPEN; CONNECTING]
  /\ trace settled
     = trace before ++ [FetchStartChat; NewWebSocket 1 (JStr "wss://y")].
Proof. vm_compute. repeat split. Qed.

(** ** Failed bootstrap *)

Lemma missing_blocks_bootstrap (status : nat) (data : jsval) :
  missing data "contactId" || missing data "participantToken"
  || missing data "websocketUrl" = true ->
  bootstrap_data (Responded status (Some data)) = None.
Proof.
  unfold missing, bootstrap_data, missing_required. intros H.
  destruct (get_prop data "contactId") as [cid|]; [|reflexivity].
  destruct (get_prop data "participantToken") as [ptok|]; [|reflexivity].
  destruct (get_prop data "websocketUrl") as [url|]; [|reflexivity].
  destruct (get_prop data "connectionToken") as [ctok|]; [|reflexivity].
  apply orb_true_iff in H. destruct H as [H|H];
    [apply orb_true_iff in H; destruct H as [H|H]|];
    apply absent_not_truthy in H; rewrite H; cbn;
    rewrite ?orb_true_r; reflexivity.
Qed.

(** C6. When the start-chat response lacks [contactId], [participantToken]
    or [websocketUrl], [initializeChat] takes its failure path: it logs the
    error and drops the loading flag, and nothing else changes.  The Session
    fields are as before (so a send stays blocked exactly as it was, and is
    blocked when no session was set), no socket is created, [wsRef] is as
    before, and the Conversation Log is as before, empty if it was empty. *)
Theorem bootstrap_missing_field_fails
  (P : Platform) (captured : bool) (status : nat) (data : jsval) (w : Sys) :
  missing data "contactId" || missing data "participantToken"
  || missing data "websocketUrl" = true ->
  let w' := exec (initializeChat_resume P captured (Responded status (Some data))) w in
  w' = exec initializeChat_failed w
  /\ trace w' = trace w ++ [ConsoleError "Chat initialization failed:"]
  /\ session_fields (st w') = session_fields (st w)
  /\ submit_blocked (st w') = submit_blocked (st w)
  /\ (session_all_absent (st w) = true -> submit_blocked (st w') = true)
  /\ sockets w' = sockets w
  /\ wsRef w' = wsRef w
  /\ messages (st w') = messages (st w)
  /\ (messages (st w) = [] -> messages (st w') = [])
  /\ isChatLoading (st w') = false.
Proof.
  intros H. cbv zeta.
  rewrite (initializeChat_resume_fails P captured _ w
             (missing_blocks_bootstrap status data H)).
  unfold initializeChat_failed, exec. cbn.
  repeat split; auto.
  unfold session_all_absent, session_fields, submit_blocked. cbn.
  intros Ha. apply andb_true_iff in Ha. destruct Ha as [Ha _].
  apply absent_not_truthy in Ha. rewrite Ha. cbn.
  rewrite orb_true_r. reflexivity.
Qed.

Lemma bootstrap_missing_field_fails_witness :
  let w := run Demo.platform [ClickOpen] initial_sys in
  let w' := exec (initializeChat_resume Demo.platform true
                    Demo.response_without_websocketUrl) w in
  sockets w' = [] /\ messages (st w') = [] /\ wsRef w' = None
  /\ session_all_absent (st w') = true.
Proof.
  pose proof (bootstrap_missing_field_fails Demo.platform true 200
                (JObj [("contactId", JStr "c1");
                       ("participantToken", JStr "p1");
                       ("connectionToken", JStr "k1")])
                (run Demo.platform [ClickOpen] initial_sys) eq_refl) as H.
  cbv zeta in H. destruct H as (_ & _ & Hs & _ & _ & Hk & Hr & Hm & _).
  cbv zeta. unfold Demo.response_without_websocketUrl.
  unfold session_all_absent. rewrite Hk, Hr, Hm, Hs.
  vm_compute. repeat split.
Defined.

(** ** Sending *)

Lemma handleSubmit_start_sends (clock : Z) (w : Sys) :
  submit_blocked (st w) = false ->
  let w' := exec (handleSubmit_start clock) w in
  messages (st w') = messages (st w) ++ [userMessage (input (st w)) clock]
  /\ trace w'
     = trace w ++ [FetchSendMessage
                     (send_body (connectionToken (st w)) (JStr (input (st w))))]
  /\ session_fields (st w') = session_fields (st w)
  /\ wsRef w' = wsRef w
  /\ sockets w' = sockets w
  /\ pendingStart w' = pendingStart w
  /\ isWidgetOpen (st w') = isWidgetOpen (st w).
Proof.
  intros Hg. cbv zeta. unfold handleSubmit_start, exec.
  unfold bind, gets. cbn. rewrite Hg. cbn. repeat split.
Qed.

Lemma handleSubmit_resume_frame (o : FetchOutcome) (w : Sys) :
  let w' := exec (handleSubmit_resume o) w in
  st w' = st w /\ wsRef w' = wsRef w /\ sockets w' = sockets w
  /\ pendingStart w' = pendingStart w.
Proof.
  cbv zeta. unfold handleSubmit_resume, exec.
  unfold try_catch, bind, gets, await_fetch.
  destruct o as [|status body]; cbn; [repeat split|].
  destruct (wsRef w) as [i|] eqn:Hr; cbn; [|repeat split; auto].
  unfold ws_send, bind, gets; cbn.
  destruct (nth_error (sockets w) i) as [sk|]; cbn; [|repeat split; auto].
  destruct (readyState sk); cbn; repeat split; auto.
Qed.

(** C7. [handleClearMessages] empties the Conversation Log and changes
    nothing else: every other cell of the component, [wsRef], the sockets,
    the calls in flight and the effects are as before.  A submit that was
    allowed before the clear is allowed after it: it appends the optimistic
    message to the emptied log and issues the same send call as it would
    have without the clear, with no start-chat call, no new socket and the
    session untouched. *)
Theorem clear_only_empties_log :
  (forall w : Sys,
      exec handleClearMessages w
      = {| st := {| messages := [];
                    input := input (st w);
                    isTyping := isTyping (st w);
                    isChatLoading := isChatLoading (st w);
                    isWidgetOpen := isWidgetOpen (st w);
                    hasNewMessage := hasNewMessage (st w);
                    hasPendingBotResponse := hasPendingBotResponse (st w);
                    contactId := contactId (st w);
                    participantToken := participantToken (st w);
                    connectionToken := connectionToken (st w);
                    wsUrl := wsUrl (st w) |};
           wsRef := wsRef w; sockets := sockets w;
           pendingStart := pendingStart w; pendingSend := pendingSend w;
           trace := trace w |})
  /\ (forall (clock : Z) (w : Sys),
        submit_blocked (st w) = false ->
        let cleared := exec handleClearMessages w in
        let w' := exec (handleSubmit_start clock) cleared in
        submit_blocked (st cleared) = false
        /\ messages (st w') = [userMessage (input (st w)) clock]
        /\ trace w'
           = trace w ++ [FetchSendMessage
                           (send_body (connectionToken (st w)) (JStr (input (st w))))]
        /\ trace w' = trace (exec (handleSubmit_start clock) w)
        /\ session_fields (st w') = session_fields (st w)
        /\ wsRef w' = wsRef w
        /\ sockets w' = sockets w
        /\ pendingStart w' = pendingStart w).
Proof.
  split; [reflexivity|].
  intros clock w Hg. cbv zeta.
  assert (Hc : submit_blocked (st (exec handleClearMessages w)) = false)
    by exact Hg.
  destruct (handleSubmit_start_sends clock _ Hc) as (Hm & Ht & Hs & Hr & Hk & Hp & _).
  destruct (handleSubmit_start_sends clock _ Hg) as (_ & Ht' & _).
  rewrite Hm, Ht, Hs, Hr, Hk, Hp, Ht'.
  repeat split. exact Hg.
Qed.

Lemma clear_only_empties_log_witness :
  messages (st (exec (handleSubmit_start 9%Z)
                  (exec handleClearMessages
                     (run Demo.platform [ChangeInput "again"] Demo.hello_sent))))
  = [userMessage "again" 9%Z].
Proof.
  pose proof (proj2 clear_only_empties_log 9%Z
                (run Demo.platform [ChangeInput "again"] Demo.hello_sent)
                eq_refl) as H.
  cbv zeta in H. exact (proj1 (proj2 H)).
Defined.




(** ** The send endpoint's parameter check *)

Lemma get_prop_defined (v : jsval) (k : string) :
  absent v = false -> exists x, get_prop v k = Some x.
Proof.
  destruct v; cbn; try discriminate; intros _; try (now exists JUndefined).
  destruct (assoc k fields); eauto.
Qed.







(** * Further properties of the handlers *)

(** ** Frames the inbound handler does not act on *)

(** X1. A frame whose text is not JSON, or whose content on a recognised
    topic is not JSON, only produces an error log: every cell of the
    component, [wsRef] and the sockets are as before. *)
Theorem unparseable_frame_only_logs
  (P : Platform) (captured : bool) (data : jsval) (w : Sys) :
  JSON_parse P data = None
  \/ (exists outer topic raw,
        JSON_parse P data = Some outer
        /\ get_prop outer "topic" = Some topic
        /\ is_str topic "aws/chat" || is_str topic "aws/typing" = true
        /\ get_prop outer "content" = Some raw
        /\ JSON_parse P raw = None) ->
  let w' := exec (ws_onmessage P captured data) w in
  st w' = st w /\ wsRef w' = wsRef w /\ sockets w' = sockets w
  /\ trace w' = trace w ++ [ConsoleError "WebSocket message error:"].
Proof.
  intros H. cbv zeta. rewrite exec_ws_onmessage.
  assert (Hc : classify P data = Malformed).
  { unfold classify.
    destruct H as [H | (outer & topic & raw & Ho & Ht & Hk & Hr & Hi)].
    - now rewrite H.
    - rewrite Ho, Ht, Hr, Hi.
      destruct (is_str topic "aws/chat"); [reflexivity|].
      cbn in Hk. now rewrite Hk. }
  rewrite Hc. repeat split.
Qed.

Lemma unparseable_frame_only_logs_witness :
  st (exec (ws_onmessage Demo.platform true (JStr "not json")) Demo.hello_sent)
  = st Demo.hello_sent.
Proof.
  exact (proj1 (unparseable_frame_only_logs Demo.platform true (JStr "not json")
                  Demo.hello_sent (or_introl eq_refl))).
Defined.

(** X2. A frame on a topic other than aws/chat and aws/typing, a chat frame
    whose inner type is not MESSAGE and a typing frame whose inner type is
    not TYPING leave the whole system as it was, without a log entry. *)
Theorem unrecognised_frame_ignored
  (P : Platform) (captured : bool) (data outer topic : jsval) (w : Sys) :
  JSON_parse P data = Some outer ->
  get_prop outer "topic" = Some topic ->
  (is_str topic "aws/chat" = false /\ is_str topic "aws/typing" = false)
  \/ (exists raw inner ty,
        get_prop outer "content" = Some raw
        /\ JSON_parse P raw = Some inner
        /\ get_prop inner "Type" = Some ty
        /\ ((is_str topic "aws/chat" = true /\ is_str ty "MESSAGE" = false)
            \/ (is_str topic "aws/chat" = false /\ is_str topic "aws/typing" = true
                /\ is_str ty "TYPING" = false))) ->
  exec (ws_onmessage P captured data) w = w.
Proof.
  intros Ho Ht H. rewrite exec_ws_onmessage.
  assert (Hc : classify P data = Ignored).
  { unfold classify. rewrite Ho, Ht.
    destruct (get_prop_some_content _ _ "content" _ Ht) as [raw' Hr'].
    rewrite Hr'.
    destruct H as [[H1 H2] | (raw & inner & ty & Hr & Hi & Hty & H)].
    - now rewrite H1, H2.
    - rewrite Hr in Hr'. injection Hr' as <-. rewrite Hi.
      destruct H as [[H1 H2] | (H1 & H2 & H3)].
      + rewrite H1. unfold classify_chat. now rewrite Hty, H2.
      + rewrite H1, H2. unfold classify_typing. now rewrite Hty, H3. }
  rewrite Hc. reflexivity.
Qed.

Lemma unrecognised_frame_ignored_witness :
  exec (ws_onmessage Demo.platform true (JNum 5)) Demo.hello_sent
  = Demo.hello_sent.
Proof.
  exact (unrecognised_frame_ignored Demo.platform true (JNum 5) (JNum 5)
           JUndefined Demo.hello_sent eq_refl eq_refl
           (or_introl (conj eq_refl eq_refl))).
Defined.

(** ** The guard of [handleSubmit] *)

Lemma handleSubmit_start_blocked (clock : Z) (w : Sys) :
  submit_blocked (st w) = true ->
  exec (handleSubmit_start clock) w = w.
Proof.
  intros Hb. unfold handleSubmit_start, exec, bind, gets. cbn. now rewrite Hb.
Qed.

Lemma submit_blocked_cases (s : State) :
  blank (input s) = true
  \/ truthy (contactId s) = false
  \/ truthy (participantToken s) = false
  \/ truthy (wsUrl s) = false ->
  submit_blocked s = true.
Proof.
  unfold submit_blocked.
  intros [H|[H|[H|H]]]; rewrite H; cbn; rewrite ?orb_true_r; reflexivity.
Qed.

(** X3. A submit with a blank input, or with [contactId],
    [participantToken] or the push-channel address missing, does nothing at
    all: no entry is appended, the input is kept and no call is issued. *)
Theorem blocked_submit_does_nothing (clock : Z) (w : Sys) :
  blank (input (st w)) = true
  \/ truthy (contactId (st w)) = false
  \/ truthy (participantToken (st w)) = false
  \/ truthy (wsUrl (st w)) = false ->
  exec (handleSubmit_start clock) w = w.
Proof.
  intros H. apply handleSubmit_start_blocked, submit_blocked_cases, H.
Qed.

Lemma blocked_submit_does_nothing_witness :
  exec (handleSubmit_start 3%Z)
    (run Demo.platform [ChangeInput "   "] Demo.active)
  = run Demo.platform [ChangeInput "   "] Demo.active.
Proof.
  exact (blocked_submit_does_nothing 3%Z
           (run Demo.platform [ChangeInput "   "] Demo.active)
           (or_introl eq_refl)).
Defined.

Lemma not_blank_truthy (s : string) : blank s = false -> truthy (JStr s) = true.
Proof. destruct s; cbn; [discriminate | reflexivity]. Qed.

Lemma send_body_get (token : jsval) (text : string) :
  get_prop (send_body token (JStr text)) "connectionToken" = Some token
  /\ get_prop (send_body token (JStr text)) "content" = Some (JStr text).
Proof. destruct token; split; reflexivity. Qed.

(** X4. The send call issued by an allowed submit always carries the
    non-blank input as its content, so the send endpoint answers it with
    MissingParameters exactly when the stored [connectionToken] is falsy;
    otherwise the endpoint passes the stored token and the text to the
    transport. *)
Theorem client_send_rejected_iff_no_token
  (aws : Server.SendMessageCommand -> Server.AwsResult) (clock : Z) (w : Sys) :
  submit_blocked (st w) = false ->
  let req_body := send_body (connectionToken (st w)) (JStr (input (st w))) in
  trace (exec (handleSubmit_start clock) w) = trace w ++ [FetchSendMessage req_body]
  /\ (truthy (connectionToken (st w)) = false ->
        Server.send_message aws req_body = Some (missing_parameters, []))
  /\ (truthy (connectionToken (st w)) = true ->
        exists resp eff,
          Server.send_message aws req_body
          = Some (resp, Server.AwsSend
                          {| Server.ConnectionToken := connectionToken (st w);
                             Server.Content := JStr (input (st w));
                             Server.ContentType := "text/plain" |} :: eff)
          /\ Server.status resp <> 400).
Proof.
  intros Hg. cbv zeta.
  destruct (handleSubmit_start_sends clock w Hg) as (_ & Ht & _).
  split; [exact Ht|].
  assert (Hnb : blank (input (st w)) = false).
  { unfold submit_blocked in Hg.
    destruct (blank (input (st w))); [discriminate Hg | reflexivity]. }
  pose proof (not_blank_truthy _ Hnb) as Htxt.
  destruct (send_body_get (connectionToken (st w)) (input (st w))) as [Gk Gc].
  unfold Server.send_message. rewrite Gk, Gc, Htxt.
  split; intros Hk; rewrite Hk; cbn; [reflexivity|].
  match goal with
  | |- context [aws ?c] => destruct (aws c)
  end; eexists; eexists; (split; [reflexivity | cbn; discriminate]).
Qed.

Lemma client_send_rejected_iff_no_token_witness :
  trace (exec (handleSubmit_start 7%Z)
           (run Demo.platform [ChangeInput "hello"] Demo.active))
  = trace (run Demo.platform [ChangeInput "hello"] Demo.active)
    ++ [FetchSendMessage (JObj [("connectionToken", JStr "k1");
                                ("content", JStr "hello")])].
Proof.
  exact (proj1 (client_send_rejected_iff_no_token
                  (fun _ => Server.AwsReply (JStr "id") (JStr "t")) 7%Z
                  (run Demo.platform [ChangeInput "hello"] Demo.active)
                  eq_refl)).
Defined.

(** ** Invariants of the states the component can reach *)

Lemma run_invariant (I : Sys -> Prop) (P : Platform) :
  (forall e w, I w -> I (step P w e)) ->
  forall es w, I w -> I (run P es w).
Proof.
  intros Hstep es. induction es as [|e es IH]; intros w Hw; cbn; [exact Hw|].
  apply IH, Hstep, Hw.
Qed.

Ltac keeps_step_eq :=
  match goal with
  | |- keeps _ (bind _ _) => apply keeps_bind; [|intros ?]
  | |- keeps _ (try_catch _ _) => apply keeps_try_catch; [|intros ?]
  | |- keeps _ (ret _) => apply keeps_ret
  | |- keeps _ (throw _) => apply keeps_throw
  | |- keeps _ (gets _) => apply keeps_gets
  | |- keeps _ (or_throw _ _) => apply keeps_or_throw
  | |- keeps _ (modify _) => apply keeps_modify; intros ? ?
  | |- keeps _ (match ?x with _ => _ end) => destruct x eqn:?
  end.

(** As [keeps_go], remembering which branch of each test was taken. *)
Ltac keeps_go_eq := repeat (open_handlers; keeps_step_eq).

Lemma entry_ok_ack (m : Message) : entry_ok m = true -> entry_ok (ack m) = true.
Proof.
  unfold ack, pending, loading, entry_ok, stop_loading.
  destruct m as [c s t [[|]|]]; cbn; destruct s; cbn; auto.
Qed.

Lemma entry_ok_deliver (m : Message) (l : list Message) :
  forallb entry_ok l = true -> entry_ok m = true ->
  forallb entry_ok (deliver m l) = true.
Proof.
  intros Hl Hm. unfold deliver. rewrite forallb_app. cbn. rewrite Hm.
  rewrite andb_true_r. rewrite forallb_forall in *.
  intros x Hx. apply in_map_iff in Hx. destruct Hx as (y & <- & Hy).
  apply entry_ok_ack, Hl, Hy.
Qed.

Lemma entry_ok_sent (text : string) (clock : Z) (l : list Message) :
  forallb entry_ok l = true -> blank text = false ->
  forallb entry_ok (l ++ [userMessage text clock]) = true.
Proof.
  intros Hl Hb. rewrite forallb_app, Hl. cbn. now rewrite Hb.
Qed.

Lemma dispatch_entries_ok (P : Platform) (e : Event) :
  keeps (fun w => forallb entry_ok (messages (st w)) = true) (dispatch P e).
Proof.
  destruct e; unfold dispatch.
  all: keeps_go_eq.
  all: cbn; try assumption; try reflexivity.
  - apply entry_ok_sent; [assumption|].
    match goal with
    | H : submit_blocked ?s = false |- _ =>
        unfold submit_blocked in H; destruct (blank (input s)); [discriminate H|reflexivity]
    end.
  - apply entry_ok_deliver; [assumption|].
    match goal with
    | H : negb (is_str ?r "CUSTOMER") = true |- _ =>
        apply negb_true_iff in H; unfold entry_ok; cbn; rewrite H; reflexivity
    end.
Qed.

(** X5. In every state reached from the mounted component, each entry of
    the Conversation Log sent by the user holds a non-blank text and a
    loading flag, and every other entry holds no loading flag: only user
    entries are ever loading. *)
Theorem log_entries_well_formed (P : Platform) (es : list Event) :
  let log := messages (st (run P es initial_sys)) in
  forallb entry_ok log = true
  /\ (forall m, In m log -> loading m = true -> sender m = user)
  /\ (forall m, In m log -> sender m = user ->
        exists text, content m = JStr text /\ blank text = false).
Proof.
  cbv zeta.
  assert (H : forallb entry_ok (messages (st (run P es initial_sys))) = true).
  { apply (run_invariant (fun w => forallb entry_ok (messages (st w)) = true) P).
    - intros e w Hw. apply (dispatch_entries_ok P e w Hw).
    - reflexivity. }
  split; [exact H|]. rewrite forallb_forall in H. split.
  - intros m Hm Hl. specialize (H m Hm). unfold entry_ok, loading in *.
    destruct (sender m); [reflexivity|].
    destruct (isLoading m); discriminate.
  - intros m Hm Hs. specialize (H m Hm). unfold entry_ok in H. rewrite Hs in H.
    destruct (content m) as [| | | |text| |]; try discriminate H.
    exists text. split; [reflexivity|].
    destruct (isLoading m); [|discriminate H].
    now apply negb_true_iff in H.
Qed.

(** ** Closures and sockets *)

Lemma keeps_bind_gets {A B} (I : Sys -> Prop) (f : Sys -> A) (Q : A -> Prop)
  (k : A -> M B) :
  (forall w, I w -> Q (f w)) ->
  (forall a, Q a -> keeps I (k a)) ->
  keeps I (bind (gets f) k).
Proof.
  intros Hq Hk w Hw. unfold bind, gets. cbn. apply (Hk (f w) (Hq w Hw) w Hw).
Qed.

Lemma Forall_update_nth {A} (Pp : A -> Prop) (f : A -> A) (i : nat) (l : list A) :
  (forall x, Pp x -> Pp (f x)) -> Forall Pp l -> Forall Pp (update_nth i f l).
Proof.
  intros Hf Hl. revert i. induction Hl as [|x l Hx Hl IH]; intros [|i]; cbn;
    constructor; auto.
Qed.

Lemma length_update_nth {A} (f : A -> A) (i : nat) (l : list A) :
  List.length (update_nth i f l) = List.length l.
Proof.
  revert i. induction l as [|x l IH]; intros [|i]; cbn; auto.
Qed.

Lemma toggle_pending (P : Platform) (b : bool) (w : Sys) :
  let w' := step P w (toggle b) in
  sockets w' = sockets w
  /\ wsRef w' = wsRef w
  /\ hasNewMessage (st w') = hasNewMessage (st w)
  /\ pendingStart w'
     = pendingStart w ++ repeat true (if b && negb (isWidgetOpen (st w)) then 1 else 0).
Proof.
  cbv zeta. unfold step, exec, toggle.
  destruct b; unfold dispatch, when_widget, handleMinimizeChat,
    setIsWidgetOpen, bind, gets; cbn;
    destruct (isWidgetOpen (st w)) eqn:E; cbn;
    rewrite ?E, ?app_nil_r; cbn; repeat split; auto.
Qed.

Lemma initializeChat_resume_pending
  (P : Platform) (captured : bool) (o : FetchOutcome) (rest : list bool) (v : bool) :
  keeps (fun w => pendingStart w = rest /\ hasNewMessage (st w) = v)
    (initializeChat_resume P captured o).
Proof. keeps_go; cbn; assumption. Qed.

Ltac keeps_step_sockets Q :=
  match goal with
  | |- keeps _ (bind (gets sockets) _) =>
      apply (keeps_bind_gets _ sockets Q); [intros ? ? | intros ? ?]
  | _ => keeps_step_eq
  end.

Ltac keeps_go_sockets Q := repeat (open_handlers; keeps_step_sockets Q).

Ltac closures_finish :=
  unfold closures_open in *; cbn; try tauto;
  try (match goal with
       | H : _ /\ _ /\ _ |- _ => destruct H as (? & ? & ?)
       end; repeat split; auto; apply Forall_update_nth; auto).

Lemma step_closures_open (P : Platform) (e : Event) (w : Sys) :
  closures_open w -> closures_open (step P w e).
Proof.
  intros Hw.
  assert (Hgen : forall m : M unit,
             keeps closures_open m -> closures_open (exec m w))
    by (intros m Hm; apply Hm, Hw).
  destruct e.
  - destruct (toggle_pending P true w) as (Hs & _ & Hn & Hp).
    destruct Hw as (A & B & C). unfold closures_open.
    change (step P w ClickOpen) with (step P w (toggle true)).
    rewrite Hs, Hn, Hp. repeat split; auto.
    apply Forall_app. split; [exact B|].
    destruct (true && negb (isWidgetOpen (st w))); cbn; auto.
  - destruct (toggle_pending P false w) as (Hs & _ & Hn & Hp).
    destruct Hw as (A & B & C). unfold closures_open.
    change (step P w ClickMinimize) with (step P w (toggle false)).
    rewrite Hs, Hn, Hp. cbn. rewrite app_nil_r. repeat split; auto.
  - apply Hgen. unfold dispatch. keeps_go_sockets (Forall (fun sk => sock_isWidgetOpen sk = true)).
    all: closures_finish.
  - apply Hgen. unfold dispatch. keeps_go_sockets (Forall (fun sk => sock_isWidgetOpen sk = true)).
    all: closures_finish.
  - apply Hgen. unfold dispatch. keeps_go_sockets (Forall (fun sk => sock_isWidgetOpen sk = true)).
    all: closures_finish.
  - apply Hgen. unfold dispatch. keeps_go_sockets (Forall (fun sk => sock_isWidgetOpen sk = true)).
    all: closures_finish.
  - destruct Hw as (A & B & C).
    unfold step, exec, dispatch, bind, gets. cbn.
    destruct (pendingStart w) as [|c rest] eqn:Ep; cbn; [repeat split; auto; now rewrite Ep|].
    inversion B as [|? ? Hc Hrest]; subst.
    set (w1 := {| st := st w; wsRef := wsRef w; sockets := sockets w;
                  pendingStart := rest; pendingSend := pendingSend w;
                  trace := trace w |}).
    change (closures_open (exec (initializeChat_resume P true o) w1)).
    destruct (initializeChat_resume_pending P true o rest false w1
                (conj eq_refl C)) as [Hp Hn].
    change (pendingStart (exec (initializeChat_resume P true o) w1) = rest) in Hp.
    change (hasNewMessage (st (exec (initializeChat_resume P true o) w1)) = false) in Hn.
    unfold closures_open. rewrite Hp, Hn. repeat split; auto.
    destruct (bootstrap_data o) as [[[[cid ptok] url] ctok]|] eqn:Hb.
    + destruct (initializeChat_resume_stores P true o cid ptok url ctok w1 Hb)
        as (_ & Hyes & Hno).
      destruct (WebSocket_accepts P url).
      * destruct (Hyes eq_refl) as (_ & Hs & _). rewrite Hs.
        apply Forall_app. split; [exact A|]. repeat constructor.
      * destruct (Hno eq_refl) as (_ & Hs & _). rewrite Hs. exact A.
    + rewrite (initializeChat_resume_fails P true o w1 Hb). exact A.
  - apply Hgen. unfold dispatch. keeps_go_sockets (Forall (fun sk => sock_isWidgetOpen sk = true)).
    all: closures_finish.
  - apply Hgen. unfold dispatch. keeps_go_sockets (Forall (fun sk => sock_isWidgetOpen sk = true)).
    all: closures_finish.
  - destruct Hw as (A & B & C).
    unfold step, exec, dispatch, bind, gets. cbn.
    destruct (nth_error (sockets w) i) as [sk|] eqn:Ei; cbn; [|repeat split; auto].
    assert (Hsk : sock_isWidgetOpen sk = true).
    { rewrite Forall_forall in A. apply A. eapply nth_error_In, Ei. }
    destruct (readyState sk); cbn; try solve [repeat split; auto].
    rewrite Hsk, ws_onmessage_classify.
    destruct (classify P data) as [role text time|state role| |]; cbn;
      try solve [repeat split; auto].
    destruct (is_str role "CUSTOMER"); cbn; repeat split; auto.
  - apply Hgen. unfold dispatch. keeps_go_sockets (Forall (fun sk => sock_isWidgetOpen sk = true)).
    all: closures_finish.
  - apply Hgen. unfold dispatch. keeps_go_sockets (Forall (fun sk => sock_isWidgetOpen sk = true)).
    all: closures_finish.
Qed.

(** X6. [initializeChat] runs only while the widget is open, so every
    socket's handlers close over [isWidgetOpen = true]: in every state
    reached from the mounted component [hasNewMessage] is still [false],
    also when a remote message arrives while the widget is minimized. *)
Theorem new_message_flag_never_set (P : Platform) (es : list Event) :
  let w := run P es initial_sys in
  hasNewMessage (st w) = false
  /\ Forall (fun sk => sock_isWidgetOpen sk = true) (sockets w).
Proof.
  cbv zeta.
  assert (H : closures_open (run P es initial_sys)).
  { apply (run_invariant closures_open P).
    - intros e w. apply step_closures_open.
    - repeat split; constructor. }
  destruct H as (A & _ & C). split; assumption.
Qed.

Lemma dispatch_no_close (P : Platform) (e : Event) (closes : list Effect) :
  is_end e = false ->
  keeps (fun w => filter is_close (trace w) = closes) (dispatch P e).
Proof.
  intros He. destruct e; try discriminate He; unfold dispatch.
  all: keeps_go.
  all: cbn; try assumption.
  all: rewrite filter_app; cbn; rewrite app_nil_r; assumption.
Qed.

(** X7. The component calls [ws.close()] only in [handleEndChat]: over any
    sequence of events without it, from any state, no close is added to the
    effects, whatever is minimized, reopened, cleared, sent or received. *)
Theorem sockets_closed_only_by_end (P : Platform) (es : list Event) (w : Sys) :
  forallb (fun e => negb (is_end e)) es = true ->
  filter is_close (trace (run P es w)) = filter is_close (trace w).
Proof.
  revert w. induction es as [|e es IH]; intros w H; [reflexivity|].
  cbn [forallb] in H. apply andb_true_iff in H. destruct H as [He Hes].
  apply negb_true_iff in He.
  change (run P (e :: es) w) with (run P es (step P w e)).
  rewrite (IH _ Hes).
  exact (dispatch_no_close P e (filter is_close (trace w)) He w eq_refl).
Qed.

Lemma sockets_closed_only_by_end_witness :
  filter is_close
    (trace (run Demo.platform
              [ClickMinimize; ClickOpen; StartChatSettled Demo.second_response;
               ClickClear; ClickMinimize] Demo.active))
  = filter is_close (trace Demo.active).
Proof.
  exact (sockets_closed_only_by_end Demo.platform
           [ClickMinimize; ClickOpen; StartChatSettled Demo.second_response;
            ClickClear; ClickMinimize] Demo.active eq_refl).
Defined.

Ltac latest_finish :=
  unfold current_is_latest in *; cbn in *;
  repeat match goal with
         | H : _ /\ _ |- _ => destruct H
         end;
  repeat split; rewrite ?length_update_nth; try congruence; try tauto;
  try (match goal with
       | H : match wsRef ?x with _ => _ end |- _ =>
           revert H; destruct (wsRef x); intros
       end; trivial; congruence).

Lemma step_current_is_latest (P : Platform) (e : Event) (w : Sys) :
  current_is_latest w -> current_is_latest (step P w e).
Proof.
  intros Hw.
  pose (n := List.length (sockets w)).
  assert (Hgen : forall m : M unit,
             keeps (fun w' => List.length (sockets w') = n /\ current_is_latest w') m ->
             current_is_latest (exec m w))
    by (intros m Hm; apply (Hm w); split; [reflexivity | exact Hw]).
  destruct e.
  7: { unfold step, exec, dispatch, bind, gets. cbn.
       destruct (pendingStart w) as [|c rest] eqn:Ep; cbn; [exact Hw|].
       set (w1 := {| st := st w; wsRef := wsRef w; sockets := sockets w;
                     pendingStart := rest; pendingSend := pendingSend w;
                     trace := trace w |}).
       change (current_is_latest (exec (initializeChat_resume P c o) w1)).
       destruct (bootstrap_data o) as [[[[cid ptok] url] ctok]|] eqn:Hb.
       - destruct (initializeChat_resume_stores P c o cid ptok url ctok w1 Hb)
           as (_ & Hyes & Hno).
         unfold current_is_latest.
         destruct (WebSocket_accepts P url).
         + destruct (Hyes eq_refl) as (Hr & Hs & _). rewrite Hr, Hs.
           rewrite length_app. cbn. lia.
         + destruct (Hno eq_refl) as (Hr & Hs & _). rewrite Hr, Hs. exact Hw.
       - rewrite (initializeChat_resume_fails P c o w1 Hb). exact Hw. }
  all: apply Hgen; unfold dispatch;
    keeps_go_sockets (fun a : list Socket => List.length a = n).
  all: latest_finish.
Qed.

(** X8. In every state reached from the mounted component, [wsRef.current]
    is either unset or the socket created last: a later bootstrap replaces
    the current socket and no handler ever points [wsRef] back at an
    earlier one. *)
Theorem current_socket_is_latest (P : Platform) (es : list Event) :
  current_is_latest (run P es initial_sys).
Proof.
  apply (run_invariant current_is_latest P).
  - intros e w. apply step_current_is_latest.
  - exact I.
Qed.

(** ** Ending, minimizing and reopening *)

Lemma nth_error_update_nth {A} (f : A -> A) (i : nat) (l : list A) :
  nth_error (update_nth i f l) i = option_map f (nth_error l i).
Proof.
  revert i. induction l as [|x l IH]; intros [|i]; cbn; auto.
Qed.





(** X10. Minimizing the open widget discards the draft in the input box and
    switches off the typing signal and the pending-response flag; the panel
    is replaced by the open button, and no effect is emitted. *)
Theorem minimize_discards_draft (P : Platform) (w : Sys) :
  isWidgetOpen (st w) = true ->
  let w' := step P w ClickMinimize in
  input (st w') = "" /\ isTyping (st w') = false
  /\ hasPendingBotResponse (st w') = false
  /\ isChatLoading (st w') = isChatLoading (st w)
  /\ render (st w') = OpenButton
  /\ trace w' = trace w /\ pendingSend w' = pendingSend w.
Proof.
  intros Ho. cbv zeta.
  unfold step, exec, dispatch, when_widget, handleMinimizeChat,
    setIsWidgetOpen, bind, gets; cbn.
  repeat (rewrite Ho; cbn). repeat split.
Qed.

Lemma minimize_discards_draft_witness :
  input (st (step Demo.platform
               (run Demo.platform [ChangeInput "draft"] Demo.active)
               ClickMinimize)) = "".
Proof.
  exact (proj1 (minimize_discards_draft Demo.platform
                  (run Demo.platform [ChangeInput "draft"] Demo.active)
                  eq_refl)).
Defined.

(** X11. Minimizing the open widget and opening it again shows the earlier
    conversation line by line, with an empty input box and no typing dots;
    the loading overlay comes back exactly when the log is empty. *)
Theorem reopen_shows_earlier_conversation (P : Platform) (w : Sys) :
  isWidgetOpen (st w) = true ->
  render (st (run P [ClickMinimize; ClickOpen] w))
  = PanelView {| overlay := Nat.eqb (List.length (messages (st w))) 0;
                 rows := map render_row (messages (st w));
                 typing_dots := false;
                 input_value := "" |}.
Proof.
  intros Ho.
  unfold run, fold_left, step, exec, dispatch, when_widget, handleMinimizeChat,
    setIsWidgetOpen, bind, gets; cbn.
  repeat (rewrite Ho; cbn). reflexivity.
Qed.

Lemma reopen_shows_earlier_conversation_witness :
  render (st (run Demo.platform [ClickMinimize; ClickOpen] Demo.hello_sent))
  = PanelView {| overlay := false;
                 rows := [{| row_reversed := true; row_icon := user;
                             row_text := JStr "hello" |}];
                 typing_dots := false;
                 input_value := "" |}.
Proof.
  exact (reopen_shows_earlier_conversation Demo.platform Demo.hello_sent eq_refl).
Defined.

(** ** After the send call settles *)

(** X12. The continuation of [handleSubmit] never looks at the response:
    every HTTP status and body is handled alike.  When the current socket is
    open it sends the typing-stopped frame on it; when the socket is still
    connecting, or the call was rejected, it logs the failure; with no
    current socket it does nothing. *)
Theorem send_response_not_inspected (w : Sys) :
  (forall status body status' body',
      exec (handleSubmit_resume (Responded status body)) w
      = exec (handleSubmit_resume (Responded status' body')) w)
  /\ (forall status body i sk,
        wsRef w = Some i -> nth_error (sockets w) i = Some sk ->
        trace (exec (handleSubmit_resume (Responded status body)) w)
        = trace w ++ match readyState sk with
                     | OPEN => [WsSend i typing_stopped_frame]
                     | CONNECTING => [ConsoleError "Message failed:"]
                     | CLOSING | CLOSED => []
                     end)
  /\ (forall status body,
        wsRef w = None ->
        exec (handleSubmit_resume (Responded status body)) w = w)
  /\ trace (exec (handleSubmit_resume Rejected) w)
     = trace w ++ [ConsoleError "Message failed:"].
Proof.
  split; [reflexivity|]. split; [|split; [|reflexivity]].
  - intros status body i sk Hr Hn.
    unfold handleSubmit_resume, exec, try_catch, bind, gets, await_fetch; cbn.
    rewrite Hr. unfold ws_send, bind, gets; cbn. rewrite Hn.
    destruct (readyState sk); cbn; rewrite ?app_nil_r; reflexivity.
  - intros status body Hr.
    unfold handleSubmit_resume, exec, try_catch, bind, gets, await_fetch; cbn.
    rewrite Hr. reflexivity.
Qed.

Lemma send_response_not_inspected_witness :
  trace (exec (handleSubmit_resume (Responded 500 None)) Demo.hello_sent)
  = trace Demo.hello_sent ++ [WsSend 0 typing_stopped_frame].
Proof.
  exact (proj1 (proj2 (send_response_not_inspected Demo.hello_sent))
           500 None 0
           {| sock_url := JStr "wss://x"; readyState := OPEN;
              sock_isWidgetOpen := true |} eq_refl eq_refl).
Defined.

(** X13. After an allowed submit in the open widget the panel shows the
    earlier lines followed by the user's text on a reversed line, an empty
    input box and the typing dots, with no loading overlay; it shows the
    same once the send call has settled, whether it succeeded or failed. *)
Theorem submit_shows_line_and_dots (clock : Z) (o : FetchOutcome) (w : Sys) :
  isWidgetOpen (st w) = true ->
  submit_blocked (st w) = false ->
  let sent := exec (handleSubmit_start clock) w in
  let shown :=
    PanelView {| overlay := false;
                 rows := map render_row (messages (st w))
                         ++ [{| row_reversed := true; row_icon := user;
                                row_text := JStr (input (st w)) |}];
                 typing_dots := true;
                 input_value := "" |} in
  render (st sent) = shown
  /\ render (st (exec (handleSubmit_resume o) sent)) = shown.
Proof.
  intros Ho Hg. cbv zeta.
  destruct (handleSubmit_resume_frame o (exec (handleSubmit_start clock) w))
    as (Hst & _).
  rewrite Hst.
  assert (H : render (st (exec (handleSubmit_start clock) w))
              = PanelView {| overlay := false;
                             rows := map render_row (messages (st w))
                                     ++ [{| row_reversed := true; row_icon := user;
                                            row_text := JStr (input (st w)) |}];
                             typing_dots := true;
                             input_value := "" |}).
  { unfold handleSubmit_start, exec, bind, gets. cbn. rewrite Hg. cbn.
    unfold render. cbn. rewrite Ho, map_app, length_app. cbn.
    rewrite Nat.add_1_r, andb_false_r, orb_true_r. reflexivity. }
  split; exact H.
Qed.

Lemma submit_shows_line_and_dots_witness :
  render (st (exec (handleSubmit_resume Rejected)
                (exec (handleSubmit_start 7%Z)
                   (run Demo.platform [ChangeInput "hello"] Demo.active))))
  = PanelView {| overlay := false;
                 rows := [{| row_reversed := true; row_icon := user;
                             row_text := JStr "hello" |}];
                 typing_dots := true;
                 input_value := "" |}.
Proof.
  exact (proj2 (submit_shows_line_and_dots 7%Z Rejected
                  (run Demo.platform [ChangeInput "hello"] Demo.active)
                  eq_refl eq_refl)).
Defined.

(** ** The send endpoint *)

Lemma is_undefined_true (v : jsval) : is_undefined v = true -> v = JUndefined.
Proof. destruct v; cbn; congruence. Qed.

Lemma truthy_defined (v : jsval) : truthy v = true -> is_undefined v = false.
Proof. destruct v; cbn; congruence. Qed.

Lemma js_or_default_truthy (v : jsval) : truthy (js_or v (JNum 500)) = true.
Proof. unfold js_or. destruct (truthy v) eqn:E; [exact E | reflexivity]. Qed.

Lemma get_prop_absent (v : jsval) (k : string) :
  absent v = true -> get_prop v k = None.
Proof. destruct v; cbn; congruence. Qed.

(** X14. When the request reaches the send endpoint without a parsed body
    ([req.body] is [undefined] or [null]), the handler raises at the
    destructuring: it writes no answer and calls nothing.  For every other
    body it answers 400, 200 or 500: it calls the transport exactly when
    both parameters are truthy, once, with the given token and content as
    text/plain, and answers 400 with no call otherwise; it answers 200
    exactly when the transport replied; and its 500 answer names
    MessageSendError with a truthy code, 500 when the error carries none. *)
Theorem send_message_outcomes
  (aws : Server.SendMessageCommand -> Server.AwsResult) (req_body : jsval) :
  (absent req_body = true -> Server.send_message aws req_body = None)
  /\ (absent req_body = false ->
        exists tok txt resp eff,
          get_prop req_body "connectionToken" = Some tok
          /\ get_prop req_body "content" = Some txt
          /\ Server.send_message aws req_body = Some (resp, eff)
          /\ (truthy tok && truthy txt = false ->
                Server.status resp = 400 /\ eff = [])
          /\ (truthy tok && truthy txt = true ->
                let cmd := {| Server.ConnectionToken := tok; Server.Content := txt;
                              Server.ContentType := "text/plain" |} in
                filter (fun c => match c with Server.AwsSend _ => true | _ => false end) eff
                = [Server.AwsSend cmd]
                /\ match aws cmd with
                   | Server.AwsReply id time =>
                       Server.status resp = 200
                       /\ get_prop (Server.body resp) "success" = Some (JBool true)
                   | Server.AwsError message code =>
                       Server.status resp = 500
                       /\ get_prop (Server.body resp) "error"
                          = Some (JStr "MessageSendError")
                       /\ get_prop (Server.body resp) "code"
                          = Some (js_or code (JNum 500))
                       /\ truthy (js_or code (JNum 500)) = true
                   end)).
Proof.
  split.
  - intros Ha. unfold Server.send_message.
    now rewrite (get_prop_absent req_body "connectionToken" Ha).
  - intros Ha.
    destruct (get_prop_defined req_body "connectionToken" Ha) as [tok Hk].
    destruct (get_prop_defined req_body "content" Ha) as [txt Hc].
    exists tok, txt. cbv zeta. unfold Server.send_message. rewrite Hk, Hc.
    destruct (truthy tok) eqn:Et; destruct (truthy txt) eqn:Ex; cbn;
      try (eexists; eexists; split; [reflexivity|]; split; [reflexivity|];
           split; [reflexivity|];
           split; [intros _; split; reflexivity | discriminate]).
    destruct (aws _) as [id time|message code] eqn:Ea;
      eexists; eexists; (split; [reflexivity|]); (split; [reflexivity|]);
      (split; [reflexivity|]); (split; [discriminate|]);
      intros _; rewrite ?Ea; cbn; (split; [reflexivity|]); (split; [reflexivity|]).
    + reflexivity.
    + pose proof (js_or_default_truthy code) as Ht.
      pose proof (truthy_defined _ Ht) as Hu.
      split; [|split; [|exact Ht]].
      * unfold json_object. cbn. destruct (is_undefined message); reflexivity.
      * unfold json_object. cbn. rewrite Hu.
        destruct (is_undefined message); reflexivity.
Qed.

Lemma send_message_outcomes_witness :
  Server.send_message (fun _ => Server.AwsError (JStr "expired") JUndefined)
    JUndefined = None
  /\ exists resp eff,
       Server.send_message (fun _ => Server.AwsError (JStr "expired") JUndefined)
         (JObj [("connectionToken", JStr "k1"); ("content", JStr "hello")])
       = Some (resp, eff)
       /\ Server.status resp = 500
       /\ get_prop (Server.body resp) "code" = Some (JNum 500).
Proof.
  split.
  - exact (proj1 (send_message_outcomes
                    (fun _ => Server.AwsError (JStr "expired") JUndefined)
                    JUndefined) eq_refl).
  - destruct (proj2 (send_message_outcomes
                       (fun _ => Server.AwsError (JStr "expired") JUndefined)
                       (JObj [("connectionToken", JStr "k1");
                              ("content", JStr "hello")])) eq_refl)
      as (tok & txt & resp & eff & Hk & Hc & Hs & _ & H).
    exists resp, eff. split; [exact Hs|].
    injection Hk as <-. injection Hc as <-.
    destruct (H eq_refl) as (_ & H500 & _ & Hcode & _).
    split; [exact H500 | exact Hcode].
Defined.

(** ** The start-chat endpoint *)

Lemma response_data_get (cid ptok ctok url : jsval) :
  let data := ChatApi.response_data cid ptok ctok url in
  get_prop data "contactId" = Some cid
  /\ get_prop data "participantToken" = Some ptok
  /\ get_prop data "connectionToken" = Some ctok
  /\ get_prop data "websocketUrl" = Some url.
Proof.
  cbv zeta. unfold ChatApi.response_data, json_object. cbn.
  destruct (is_undefined cid) eqn:E1; [apply is_undefined_true in E1; subst|];
    (destruct (is_undefined ptok) eqn:E2; [apply is_undefined_true in E2; subst|]);
    (destruct (is_undefined ctok) eqn:E3; [apply is_undefined_true in E3; subst|]);
    (destruct (is_undefined url) eqn:E4; [apply is_undefined_true in E4; subst|]);
    cbn; repeat split.
Qed.

Lemma chat_error_fails_guard (message code : jsval) :
  Server.status (ChatApi.chat_error message code) = 500
  /\ get_prop (Server.body (ChatApi.chat_error message code)) "error"
     = Some (JStr "ChatInitializationError")
  /\ get_prop (Server.body (ChatApi.chat_error message code)) "code"
     = Some (js_or code (JNum 500))
  /\ bootstrap_data (Server.as_fetch (ChatApi.chat_error message code)) = None.
Proof.
  pose proof (truthy_defined _ (js_or_default_truthy code)) as Hu.
  unfold ChatApi.chat_error, Server.as_fetch, bootstrap_data, json_object. cbn.
  rewrite Hu. destruct (is_undefined message); cbn; repeat split.
Qed.

(** X15. When the request reaches the start-chat endpoint without a parsed
    body ([req.body] is [undefined] or [null]), reading its display name
    raises inside the [try]: the endpoint answers 500 and starts no contact.
    For every other body it first starts the contact, once, with the
    instance and contact flow of the environment and the display name of
    the request, or Customer when the request gives none or a falsy one. *)
Theorem start_chat_display_name
  (type_error : string -> jsval) (env : ChatApi.Env) (aws : ChatApi.Aws)
  (req_body : jsval) :
  (absent req_body = true ->
     ChatApi.start_chat type_error env aws req_body
     = (ChatApi.chat_error (type_error "displayName") JUndefined,
        [ChatApi.LogChatError]))
  /\ (absent req_body = false ->
        exists displayName rest,
          get_prop req_body "displayName" = Some displayName
          /\ snd (ChatApi.start_chat type_error env aws req_body)
             = ChatApi.ConnectSend (ChatApi.client_config env)
                 {| ChatApi.InstanceId := ChatApi.AWS_INSTANCE_ID env;
                    ChatApi.ContactFlowId := ChatApi.AWS_CONTACT_FLOW_ID env;
                    ChatApi.DisplayName :=
                      if truthy displayName then displayName else JStr "Customer" |}
               :: rest
          /\ Forall (fun c => match c with
                              | ChatApi.ConnectSend _ _ => False
                              | _ => True
                              end) rest).
Proof.
  split.
  - intros Ha. unfold ChatApi.start_chat.
    now rewrite (get_prop_absent req_body "displayName" Ha).
  - intros Ha.
    destruct (get_prop_defined req_body "displayName" Ha) as [displayName Hd].
    exists displayName. unfold ChatApi.start_chat. rewrite Hd.
    fold (js_or displayName (JStr "Customer")).
    destruct (ChatApi.connect_send aws _ _) as [sr|m c]; cbn.
    + destruct (get_prop sr "ParticipantToken") as [ptok|]; cbn.
      * destruct (ChatApi.participant_send aws _ _) as [cr|m c]; cbn.
        -- destruct (get_prop sr "ContactId"),
             (get_prop cr "ConnectionCredentials") as [cred|],
             (get_prop cr "Websocket") as [ws|]; cbn;
             try (eexists; split; [reflexivity|]; split;
                  [reflexivity | repeat constructor]).
           destruct (ChatApi.optional_prop cred "ConnectionToken"),
             (ChatApi.optional_prop ws "Url"); cbn;
             eexists; (split; [reflexivity|]); (split;
               [reflexivity | repeat constructor]).
        -- eexists; split; [reflexivity|]; split; [reflexivity | repeat constructor].
      * eexists; split; [reflexivity|]; split; [reflexivity | repeat constructor].
    + eexists; split; [reflexivity|]; split; [reflexivity | repeat constructor].
Qed.

Lemma start_chat_display_name_witness :
  snd (ChatApi.start_chat (fun _ => JStr "TypeError")
         (ChatApi.mkEnv (JStr "eu") (JStr "id") (JStr "key") (JStr "inst") (JStr "flow"))
         (ChatApi.mkAws (fun _ _ => ChatApi.Failed (JStr "denied") (JNum 403))
                        (fun _ _ => ChatApi.Failed (JStr "denied") (JNum 403)))
         JUndefined)
  = [ChatApi.LogChatError]
  /\ exists rest,
       snd (ChatApi.start_chat (fun _ => JStr "TypeError")
              (ChatApi.mkEnv (JStr "eu") (JStr "id") (JStr "key") (JStr "inst") (JStr "flow"))
              (ChatApi.mkAws (fun _ _ => ChatApi.Failed (JStr "denied") (JNum 403))
                             (fun _ _ => ChatApi.Failed (JStr "denied") (JNum 403)))
              (JObj []))
       = ChatApi.ConnectSend
           (ChatApi.mkConfig (JStr "eu") (JStr "id") (JStr "key"))
           (ChatApi.mkStartChat (JStr "inst") (JStr "flow") (JStr "Customer"))
         :: rest.
Proof.
  split.
  - exact (f_equal snd
             (proj1 (start_chat_display_name (fun _ => JStr "TypeError")
                       (ChatApi.mkEnv (JStr "eu") (JStr "id") (JStr "key")
                          (JStr "inst") (JStr "flow"))
                       (ChatApi.mkAws
                          (fun _ _ => ChatApi.Failed (JStr "denied") (JNum 403))
                          (fun _ _ => ChatApi.Failed (JStr "denied") (JNum 403)))
                       JUndefined) eq_refl)).
  - destruct (proj2 (start_chat_display_name (fun _ => JStr "TypeError")
                       (ChatApi.mkEnv (JStr "eu") (JStr "id") (JStr "key")
                          (JStr "inst") (JStr "flow"))
                       (ChatApi.mkAws
                          (fun _ _ => ChatApi.Failed (JStr "denied") (JNum 403))
                          (fun _ _ => ChatApi.Failed (JStr "denied") (JNum 403)))
                       (JObj [])) eq_refl) as (dn & rest & Hd & H & _).
    exists rest. injection Hd as <-. exact H.
Defined.

(** X16. Whatever the request and the services do, the start-chat endpoint
    answers 200 or 500.  A 500 answer names ChatInitializationError, carries
    a truthy code and comes with one error log; a 200 answer comes with
    both service calls and no log.  When starting the contact fails, the
    participant connection is never requested and the answer's code is the
    error's status, or 500 when it has none. *)
Theorem start_chat_failure_answers_500
  (type_error : string -> jsval) (env : ChatApi.Env) (aws : ChatApi.Aws)
  (req_body : jsval) :
  let resp := fst (ChatApi.start_chat type_error env aws req_body) in
  let calls := snd (ChatApi.start_chat type_error env aws req_body) in
  ((Server.status resp = 200 /\ ~ In ChatApi.LogChatError calls
    /\ List.length calls = 2)
   \/ (Server.status resp = 500
       /\ get_prop (Server.body resp) "error" = Some (JStr "ChatInitializationError")
       /\ (exists code, get_prop (Server.body resp) "code" = Some code
                        /\ truthy code = true)
       /\ filter (fun c => match c with ChatApi.LogChatError => true | _ => false end) calls
          = [ChatApi.LogChatError]))
  /\ (forall displayName cmd message code,
        get_prop req_body "displayName" = Some displayName ->
        cmd = {| ChatApi.InstanceId := ChatApi.AWS_INSTANCE_ID env;
                 ChatApi.ContactFlowId := ChatApi.AWS_CONTACT_FLOW_ID env;
                 ChatApi.DisplayName := js_or displayName (JStr "Customer") |} ->
        ChatApi.connect_send aws (ChatApi.client_config env) cmd
        = ChatApi.Failed message code ->
        calls = [ChatApi.ConnectSend (ChatApi.client_config env) cmd;
                 ChatApi.LogChatError]
        /\ get_prop (Server.body resp) "code" = Some (js_or code (JNum 500))).
Proof.
  cbv zeta. split.
  - assert (Herr : forall m c calls,
               filter (fun c => match c with ChatApi.LogChatError => true | _ => false end) calls
               = [ChatApi.LogChatError] ->
               (Server.status (ChatApi.chat_error m c) = 200
                /\ ~ In ChatApi.LogChatError calls /\ List.length calls = 2)
               \/ (Server.status (ChatApi.chat_error m c) = 500
                   /\ get_prop (Server.body (ChatApi.chat_error m c)) "error"
                      = Some (JStr "ChatInitializationError")
                   /\ (exists code,
                          get_prop (Server.body (ChatApi.chat_error m c)) "code" = Some code
                          /\ truthy code = true)
                   /\ filter (fun c => match c with ChatApi.LogChatError => true | _ => false end) calls
                      = [ChatApi.LogChatError])).
    { intros m c calls Hf. right.
      destruct (chat_error_fails_guard m c) as (H1 & H2 & H3 & _).
      repeat split; auto. exists (js_or c (JNum 500)).
      split; [exact H3 | apply js_or_default_truthy]. }
    unfold ChatApi.start_chat.
    destruct (get_prop req_body "displayName") as [dn|]; cbn [fst snd]; [|apply Herr; reflexivity].
    destruct (ChatApi.connect_send aws _ _) as [sr|m c]; cbn [fst snd]; [|apply Herr; reflexivity].
    destruct (get_prop sr "ParticipantToken") as [ptok|]; cbn [fst snd]; [|apply Herr; reflexivity].
    destruct (ChatApi.participant_send aws _ _) as [cr|m c]; cbn [fst snd]; [|apply Herr; reflexivity].
    destruct (get_prop sr "ContactId"), (get_prop cr "ConnectionCredentials") as [cred|],
      (get_prop cr "Websocket") as [ws|]; cbn [fst snd]; try (apply Herr; reflexivity).
    destruct (ChatApi.optional_prop cred "ConnectionToken"),
      (ChatApi.optional_prop ws "Url"); cbn [fst snd]; try (apply Herr; reflexivity).
    left. cbn. repeat split. intros [H|[H|[]]]; discriminate H.
  - intros dn cmd m c Hd -> Hf. unfold ChatApi.start_chat. rewrite Hd, Hf. cbn.
    split; [reflexivity|].
    destruct (chat_error_fails_guard m c) as (_ & _ & H3 & _). exact H3.
Qed.

Lemma start_chat_failure_answers_500_witness :
  get_prop
    (Server.body
       (fst (ChatApi.start_chat (fun _ => JStr "TypeError")
               (ChatApi.mkEnv (JStr "eu") (JStr "id") (JStr "key") (JStr "inst") (JStr "flow"))
               (ChatApi.mkAws (fun _ _ => ChatApi.Failed (JStr "denied") (JNum 403))
                              (fun _ _ => ChatApi.Failed (JStr "denied") (JNum 403)))
               (JObj [])))) "code"
  = Some (JNum 403).
Proof.
  exact (proj2 (proj2 (start_chat_failure_answers_500 (fun _ => JStr "TypeError")
                  (ChatApi.mkEnv (JStr "eu") (JStr "id") (JStr "key") (JStr "inst") (JStr "flow"))
                  (ChatApi.mkAws (fun _ _ => ChatApi.Failed (JStr "denied") (JNum 403))
                                 (fun _ _ => ChatApi.Failed (JStr "denied") (JNum 403)))
                  (JObj []))
                  JUndefined _ (JStr "denied") (JNum 403) eq_refl eq_refl eq_refl)).
Defined.

(** ** The start-chat answer as the client reads it *)

Lemma response_data_bootstrap (n : nat) (cid ptok ctok url : jsval) :
  bootstrap_data (Responded n (Some (ChatApi.response_data cid ptok ctok url)))
  = if missing_required cid ptok url then None else Some (cid, ptok, url, ctok).
Proof.
  destruct (response_data_get cid ptok ctok url) as (H1 & H2 & H3 & H4).
  unfold bootstrap_data. rewrite H1, H2, H3, H4. reflexivity.
Qed.

(** X17. A 500 answer of the start-chat endpoint always sends
    [initializeChat] down its failure path.  A 200 answer carries the
    contact id and participant token of the started contact and the
    connection token and address of the participant connection; the client
    gets past its guard exactly when contact id, participant token and
    address are truthy, and then stores exactly these four values as its
    Session fields, the connection token as given, possibly absent. *)
Theorem start_chat_answer_meets_client_guard
  (type_error : string -> jsval) (env : ChatApi.Env) (aws : ChatApi.Aws)
  (req_body : jsval) :
  let resp := fst (ChatApi.start_chat type_error env aws req_body) in
  let cfg := ChatApi.client_config env in
  (Server.status resp = 500 ->
     forall P captured w,
       exec (initializeChat_resume P captured (Server.as_fetch resp)) w
       = exec initializeChat_failed w)
  /\ (Server.status resp = 200 ->
        exists displayName started connected credentials websocket cid ptok ctok url,
          get_prop req_body "displayName" = Some displayName
          /\ ChatApi.connect_send aws cfg
               {| ChatApi.InstanceId := ChatApi.AWS_INSTANCE_ID env;
                  ChatApi.ContactFlowId := ChatApi.AWS_CONTACT_FLOW_ID env;
                  ChatApi.DisplayName := js_or displayName (JStr "Customer") |}
             = ChatApi.Fulfilled started
          /\ get_prop started "ContactId" = Some cid
          /\ get_prop started "ParticipantToken" = Some ptok
          /\ ChatApi.participant_send aws cfg
               {| ChatApi.ParticipantToken := ptok;
                  ChatApi.Type_ := ["WEBSOCKET"; "CONNECTION_CREDENTIALS"] |}
             = ChatApi.Fulfilled connected
          /\ get_prop connected "ConnectionCredentials" = Some credentials
          /\ ChatApi.optional_prop credentials "ConnectionToken" = Some ctok
          /\ get_prop connected "Websocket" = Some websocket
          /\ ChatApi.optional_prop websocket "Url" = Some url
          /\ bootstrap_data (Server.as_fetch resp)
             = (if missing_required cid ptok url then None
                else Some (cid, ptok, url, ctok))
          /\ forall P captured w,
               missing_required cid ptok url = false ->
               session_fields
                 (st (exec (initializeChat_resume P captured (Server.as_fetch resp)) w))
               = [cid; ptok; ctok; url]).
Proof.
  cbv zeta.
  assert (Herr : forall m c,
             (Server.status (ChatApi.chat_error m c) = 500 ->
              forall P captured w,
                exec (initializeChat_resume P captured
                        (Server.as_fetch (ChatApi.chat_error m c))) w
                = exec initializeChat_failed w)).
  { intros m c _ P captured w.
    destruct (chat_error_fails_guard m c) as (_ & _ & _ & Hn).
    apply initializeChat_resume_fails, Hn. }
  unfold ChatApi.start_chat.
  destruct (get_prop req_body "displayName") as [dn|] eqn:Ed; cbn [fst snd];
    [|split; [apply Herr | discriminate]].
  destruct (ChatApi.connect_send aws _ _) as [sr|m c] eqn:Es; cbn [fst snd];
    [|split; [apply Herr | discriminate]].
  destruct (get_prop sr "ParticipantToken") as [ptok|] eqn:Ep; cbn [fst snd];
    [|split; [apply Herr | discriminate]].
  destruct (ChatApi.participant_send aws _ _) as [cr|m c] eqn:Ec; cbn [fst snd];
    [|split; [apply Herr | discriminate]].
  destruct (get_prop sr "ContactId") as [cid|] eqn:Ei;
    [|cbn [fst snd]; split; [apply Herr | discriminate]].
  destruct (get_prop cr "ConnectionCredentials") as [cred|] eqn:Ek;
    [|cbn [fst snd]; split; [apply Herr | discriminate]].
  destruct (get_prop cr "Websocket") as [ws|] eqn:Ew;
    [|cbn [fst snd]; split; [apply Herr | discriminate]].
  destruct (ChatApi.optional_prop cred "ConnectionToken") as [ctok|] eqn:Et;
    [|cbn [fst snd]; split; [apply Herr | discriminate]].
  destruct (ChatApi.optional_prop ws "Url") as [url|] eqn:Eu;
    [|cbn [fst snd]; split; [apply Herr | discriminate]].
  cbn [fst snd]. split; [discriminate|]. intros _.
  exists dn, sr, cr, cred, ws, cid, ptok, ctok, url.
  repeat (split; [assumption || reflexivity|]).
  unfold Server.as_fetch. cbn [Server.status Server.body].
  split; [apply response_data_bootstrap|].
  intros P captured w Hm.
  pose proof (response_data_bootstrap 200 cid ptok ctok url) as Hb.
  rewrite Hm in Hb.
  destruct (initializeChat_resume_stores P captured _ cid ptok url ctok w Hb)
    as [(Hc & Hp & Hu & Hk & _) _].
  unfold session_fields. now rewrite Hc, Hp, Hu, Hk.
Qed.

Lemma start_chat_answer_meets_client_guard_witness :
  exec (initializeChat_resume Demo.platform true
          (Server.as_fetch
             (fst (ChatApi.start_chat (fun _ => JStr "TypeError")
                     (ChatApi.mkEnv (JStr "eu") (JStr "id") (JStr "key")
                        (JStr "inst") (JStr "flow"))
                     (ChatApi.mkAws
                        (fun _ _ => ChatApi.Failed (JStr "denied") (JNum 403))
                        (fun _ _ => ChatApi.Failed (JStr "denied") (JNum 403)))
                     (JObj [])))))
    initial_sys
  = exec initializeChat_failed initial_sys.
Proof.
  exact (proj1 (start_chat_answer_meets_client_guard (fun _ => JStr "TypeError")
                  (ChatApi.mkEnv (JStr "eu") (JStr "id") (JStr "key")
                     (JStr "inst") (JStr "flow"))
                  (ChatApi.mkAws
                     (fun _ _ => ChatApi.Failed (JStr "denied") (JNum 403))
                     (fun _ _ => ChatApi.Failed (JStr "denied") (JNum 403)))
                  (JObj []))
           eq_refl Demo.platform true initial_sys).
Defined.

(** ** Before the first bootstrap *)

Lemma step_before_session (P : Platform) (e : Event) (w : Sys) :
  no_bootstrap e = true -> before_session w -> before_session (step P w e).
Proof.
  intros He (Hc & Hm & Hs & Hr & Ht).
  destruct w as [s r sks ps pn tr]. cbn in Hc, Hm, Hs, Hr, Ht. subst r sks.
  destruct e; unfold step, exec, dispatch.
  - unfold when_widget, setIsWidgetOpen, bind, gets; cbn.
    destruct (isWidgetOpen s) eqn:E; cbn; rewrite ?E; cbn;
      unfold before_session; cbn; rewrite ?forallb_app, ?Ht; repeat split; auto.
  - unfold when_widget, handleMinimizeChat, setIsWidgetOpen, bind, gets; cbn.
    destruct (isWidgetOpen s) eqn:E; cbn; rewrite ?E; cbn;
      unfold before_session; cbn; repeat split; auto.
  - unfold when_widget, handleClearMessages, bind, gets; cbn.
    destruct (isWidgetOpen s); cbn; unfold before_session; cbn; repeat split; auto.
  - unfold when_widget, bind, gets; cbn.
    destruct (isWidgetOpen s); cbn; unfold before_session; cbn; repeat split; auto.
  - unfold when_widget, bind, gets; cbn -[handleSubmit_start].
    destruct (isWidgetOpen s); cbn -[handleSubmit_start];
      [|unfold before_session; cbn; repeat split; auto].
    match goal with
    | |- before_session (snd (handleSubmit_start clock ?w1)) =>
        change (before_session (exec (handleSubmit_start clock) w1));
        rewrite (handleSubmit_start_blocked clock w1)
    end.
    + unfold before_session; cbn; repeat split; auto.
    + apply submit_blocked_cases. right. left. cbn. rewrite Hc. reflexivity.
  - unfold handleEndChat, bind, gets; cbn.
    unfold before_session; cbn; repeat split; auto.
  - unfold bind, gets; cbn.
    destruct ps as [|c rest]; cbn; [unfold before_session; cbn; repeat split; auto|].
    cbn in He. destruct (bootstrap_data o) eqn:Hb; [discriminate He|].
    match goal with
    | |- before_session (snd (initializeChat_resume P c o ?w1)) =>
        change (before_session (exec (initializeChat_resume P c o) w1));
        rewrite (initializeChat_resume_fails P c o w1 Hb)
    end.
    unfold before_session; cbn. rewrite forallb_app, Ht. repeat split; auto.
  - unfold handleSubmit_resume, try_catch, bind, gets, await_fetch; cbn.
    destruct pn; cbn; [unfold before_session; cbn; repeat split; auto|].
    destruct o; cbn; unfold before_session; cbn;
      rewrite ?forallb_app, ?Ht; repeat split; auto.
  - unfold bind, gets; cbn. destruct i; cbn;
      unfold before_session; cbn; repeat split; auto.
  - unfold bind, gets; cbn. destruct i; cbn;
      unfold before_session; cbn; repeat split; auto.
  - unfold bind, gets; cbn. destruct i; cbn;
      unfold before_session; cbn; repeat split; auto.
  - unfold bind, gets; cbn. destruct i; cbn;
      unfold before_session; cbn; repeat split; auto.
Qed.

(** X18. Until a start-chat call settles past the guard, nothing the user
    or the network does gets anything sent: over any such sequence of events
    from the mounted component the log stays empty, no socket is created, no
    frame and no send call is issued, and every submit is blocked. *)
Theorem nothing_sent_before_bootstrap (P : Platform) (es : list Event) :
  forallb no_bootstrap es = true ->
  let w := run P es initial_sys in
  before_session w /\ submit_blocked (st w) = true.
Proof.
  intros H. cbv zeta.
  assert (Hb : before_session (run P es initial_sys)).
  { assert (Hi : before_session initial_sys) by (repeat split).
    revert H Hi. generalize initial_sys.
    induction es as [|e es IH]; intros w H Hw; [exact Hw|].
    cbn [forallb] in H. apply andb_true_iff in H. destruct H as [He Hes].
    change (run P (e :: es) w) with (run P es (step P w e)).
    apply IH; [exact Hes|]. apply step_before_session; assumption. }
  split; [exact Hb|].
  destruct Hb as (Hc & _). unfold submit_blocked. rewrite Hc. cbn.
  rewrite orb_true_r. reflexivity.
Qed.

Lemma nothing_sent_before_bootstrap_witness :
  before_session
    (run Demo.platform
       [ClickOpen; ChangeInput "hello"; Submit 7;
        StartChatSettled Demo.response_without_websocketUrl; Submit 8]
       initial_sys).
Proof.
  exact (proj1 (nothing_sent_before_bootstrap Demo.platform
                  [ClickOpen; ChangeInput "hello"; Submit 7;
                   StartChatSettled Demo.response_without_websocketUrl; Submit 8]
                  eq_refl)).
Defined.

(** ** What the user sees *)

Lemma render_row_ack (m : Message) : render_row (ack m) = render_row m.
Proof. unfold ack. destruct (pending m); reflexivity. Qed.

(** X19. When a message from a non-local participant arrives in the open
    widget and its content is a plain value (a string, as the service sends
    it, or a number, boolean, null or undefined) and so are the contents
    already in the log, the lines already shown stay as they are (the
    loading flag of an entry is not rendered), the new text is added as a
    last line with the bot icon, not reversed, and the typing dots stay
    exactly when the Typing Signal is on. *)
Theorem remote_message_on_screen
  (P : Platform) (captured : bool) (data role text time : jsval) (w : Sys) :
  isWidgetOpen (st w) = true ->
  forallb (fun m => plain_child (content m)) (messages (st w)) = true ->
  classify P data = ChatMessage role text time ->
  is_str role "CUSTOMER" = false ->
  plain_child text = true ->
  let w' := exec (ws_onmessage P captured data) w in
  forallb (fun m => plain_child (content m)) (messages (st w')) = true
  /\ render (st w')
     = PanelView {| overlay := false;
                    rows := map render_row (messages (st w))
                            ++ [{| row_reversed := false; row_icon := bot;
                                   row_text := text |}];
                    typing_dots := isTyping (st w);
                    input_value := input (st w) |}.
Proof.
  intros Ho Hlog Hc Hrole Htext. cbv zeta.
  rewrite exec_ws_onmessage, Hc. cbn. rewrite Hrole.
  assert (Hrows : map render_row (deliver (newMessage role text time) (messages (st w)))
                  = map render_row (messages (st w))
                    ++ [{| row_reversed := false; row_icon := bot; row_text := text |}]).
  { unfold deliver. rewrite map_app, map_map. cbn.
    unfold newMessage, render_row at 2. cbn. rewrite Hrole. cbn.
    f_equal. apply map_ext. intros m. apply render_row_ack. }
  assert (Hplain : forallb (fun m => plain_child (content m))
                     (deliver (newMessage role text time) (messages (st w))) = true).
  { unfold deliver. rewrite forallb_app. cbn. rewrite Htext, andb_true_r.
    rewrite forallb_forall in *. intros x Hx.
    apply in_map_iff in Hx. destruct Hx as (y & <- & Hy).
    destruct (same_text_ack y) as (Ec & _). rewrite Ec. apply Hlog, Hy. }
  destruct captured; cbn; (split; [exact Hplain|]);
    unfold render; cbn; rewrite Ho, Hrows;
    unfold deliver; rewrite length_app; cbn;
    rewrite Nat.add_1_r, andb_false_r, orb_false_r; reflexivity.
Qed.

Lemma remote_message_on_screen_witness :
  render (st (exec (ws_onmessage Demo.platform true (JStr "agent-hi"))
                Demo.hello_sent))
  = PanelView {| overlay := false;
                 rows := [{| row_reversed := true; row_icon := user;
                             row_text := JStr "hello" |};
                          {| row_reversed := false; row_icon := bot;
                             row_text := JStr "hi" |}];
                 typing_dots := false;
                 input_value := "" |}.
Proof.
  exact (proj2 (remote_message_on_screen Demo.platform true (JStr "agent-hi")
                  (JStr "AGENT") (JStr "hi") (JStr "2024-01-01T00:00:00Z")
                  Demo.hello_sent eq_refl eq_refl eq_refl eq_refl eq_refl)).
Defined.

(** X20. When the first start-chat call after opening the widget does not
    get past the guard (rejected, not JSON, or a required field missing),
    the widget stays open and shows an empty panel without overlay: the
    failure is only logged, and a submit stays blocked. *)
Theorem failed_bootstrap_shows_empty_panel (P : Platform) (o : FetchOutcome) :
  bootstrap_data o = None ->
  let w := run P [ClickOpen; StartChatSettled o] initial_sys in
  render (st w)
  = PanelView {| overlay := false; rows := []; typing_dots := false;
                 input_value := "" |}
  /\ trace w = [FetchStartChat; ConsoleError "Chat initialization failed:"]
  /\ sockets w = []
  /\ submit_blocked (st w) = true.
Proof.
  intros Hb. cbv zeta.
  set (opened := {| st := {| messages := []; input := ""; isTyping := false;
                             isChatLoading := true; isWidgetOpen := true;
                             hasNewMessage := false; hasPendingBotResponse := false;
                             contactId := JNull; participantToken := JNull;
                             connectionToken := JNull; wsUrl := JNull |};
                    wsRef := None; sockets := []; pendingStart := [];
                    pendingSend := 0; trace := [FetchStartChat] |}).
  assert (H : run P [ClickOpen; StartChatSettled o] initial_sys
              = exec (initializeChat_resume P true o) opened) by reflexivity.
  rewrite H, (initializeChat_resume_fails P true o opened Hb).
  repeat split.
Qed.

Lemma failed_bootstrap_shows_empty_panel_witness :
  render (st (run Demo.platform [ClickOpen; StartChatSettled Rejected] initial_sys))
  = PanelView {| overlay := false; rows := []; typing_dots := false;
                 input_value := "" |}.
Proof.
  exact (proj1 (failed_bootstrap_shows_empty_panel Demo.platform Rejected eq_refl)).
Defined.

(** X21. When a connecting socket opens, its handler sends the subscription
    to aws/chat and aws/typing on that socket, once, and drops the loading
    flag; the log, the Session fields and [wsRef] are untouched. *)
Theorem socket_open_subscribes (P : Platform) (i : nat) (sk : Socket) (w : Sys) :
  nth_error (sockets w) i = Some sk ->
  readyState sk = CONNECTING ->
  let w' := step P w (WsOpened i) in
  trace w' = trace w ++ [WsSend i subscribe_frame]
  /\ nth_error (sockets w') i = Some (set_readyState OPEN sk)
  /\ isChatLoading (st w') = false
  /\ messages (st w') = messages (st w)
  /\ session_fields (st w') = session_fields (st w)
  /\ wsRef w' = wsRef w.
Proof.
  intros Hn Hs. cbv zeta.
  unfold step, exec, dispatch, bind, gets; cbn. rewrite Hn, Hs.
  unfold mark_socket, ws_onopen, ws_send, bind, gets; cbn.
  rewrite nth_error_update_nth, Hn. cbn. repeat split.
  rewrite nth_error_update_nth, Hn. reflexivity.
Qed.

Lemma socket_open_subscribes_witness :
  trace (step Demo.platform
           (run Demo.platform [ClickOpen; StartChatSettled Demo.full_response]
              initial_sys)
           (WsOpened 0))
  = trace (run Demo.platform [ClickOpen; StartChatSettled Demo.full_response]
             initial_sys)
    ++ [WsSend 0 subscribe_frame].
Proof.
  exact (proj1 (socket_open_subscribes Demo.platform 0
                  {| sock_url := JStr "wss://x"; readyState := CONNECTING;
                     sock_isWidgetOpen := true |}
                  (run Demo.platform [ClickOpen; StartChatSettled Demo.full_response]
                     initial_sys)
                  eq_refl eq_refl)).
Defined.

(** X22. An error or a close of a socket only drops the loading flag (the
    error is also logged): the Session fields, the log and [wsRef] stay as
    they were, so a submit that was allowed is still allowed, and nothing is
    torn down or reconnected. *)
Theorem socket_close_keeps_session (P : Platform) (i : nat) (sk : Socket) (w : Sys) :
  nth_error (sockets w) i = Some sk ->
  readyState sk <> CLOSED ->
  let closed := step P w (WsClosed i) in
  let errored := step P w (WsErrored i) in
  (nth_error (sockets closed) i = Some (set_readyState CLOSED sk)
   /\ trace closed = trace w
   /\ isChatLoading (st closed) = false
   /\ session_fields (st closed) = session_fields (st w)
   /\ messages (st closed) = messages (st w)
   /\ wsRef closed = wsRef w
   /\ submit_blocked (st closed) = submit_blocked (st w))
  /\ (sockets errored = sockets w
      /\ trace errored = trace w ++ [ConsoleError "WebSocket error:"]
      /\ isChatLoading (st errored) = false
      /\ session_fields (st errored) = session_fields (st w)
      /\ messages (st errored) = messages (st w)
      /\ wsRef errored = wsRef w
      /\ submit_blocked (st errored) = submit_blocked (st w)).
Proof.
  intros Hn Hs. cbv zeta.
  unfold step, exec, dispatch, bind, gets; cbn. rewrite Hn.
  destruct (readyState sk) eqn:Er; try (now elim Hs);
    unfold mark_socket, ws_onclose, ws_onerror, bind, gets; cbn;
    rewrite nth_error_update_nth, Hn; repeat split.
Qed.

Lemma socket_close_keeps_session_witness :
  submit_blocked
    (st (step Demo.platform
           (run Demo.platform [ChangeInput "hello"] Demo.active) (WsClosed 0)))
  = submit_blocked (st (run Demo.platform [ChangeInput "hello"] Demo.active)).
Proof.
  pose proof (socket_close_keeps_session Demo.platform 0
                {| sock_url := JStr "wss://x"; readyState := OPEN;
                   sock_isWidgetOpen := true |}
                (run Demo.platform [ChangeInput "hello"] Demo.active)
                eq_refl ltac:(discriminate)) as H.
  cbv zeta in H. destruct H as ((_ & _ & _ & _ & _ & _ & H) & _). exact H.
Defined.

Lemma log_entries_well_formed_witness :
  exists text,
    content (userMessage "hello" 7%Z) = JStr text /\ blank text = false.
Proof.
  exact (proj2 (proj2 (log_entries_well_formed Demo.platform
                         [ClickOpen; StartChatSettled Demo.full_response;
                          WsOpened 0; ChangeInput "hello"; Submit 7]))
           (userMessage "hello" 7%Z) (or_introl eq_refl) eq_refl).
Defined.
